(** * EasyReflectometryLib: the calculator adapter, the material container
      and the model's storage mirror

    A shallow embedding of
    - [easyReflectometryLib/Interfaces/cryspy.py] (class [Cryspy]),
    - [EasyReflectometry/sample/elements/materials/material.py]
      (class [Material] and [MATERIAL_DEFAULTS]),
    and of the collection operations of the model, which the test
    [tests/Experiment/test_model.py] exercises.

    Python objects are attribute dictionaries, Python dicts are [gmap]s keyed
    by strings, and a method of the adapter is a function from the adapter
    to an outcome (a value or a raised exception) paired with the adapter it
    leaves behind: what a method wrote before it raised stays written. *)

From Stdlib Require Import QArith.
From stdpp Require Import gmap strings list fin_maps sorting.

Open Scope string_scope.
Open Scope list_scope.

(** ** Python values *)

(** A Python [float] as far as this code goes: it is stored, compared with
    bounds and handed back, never computed with.  [-np.Inf] and [np.Inf] are
    the two infinite bounds of [MATERIAL_DEFAULTS]. *)
Inductive number :=
| NegInf
| Fin (q : Q)
| PosInf.

#[warnings="-register-all"]
Inductive pyval :=
| PyNone
| PyBool (b : bool)
| PyFloat (x : number)
| PyStr (s : string)
| PyDict (d : gmap string pyval).

(** [a < b] on floats. *)
Definition number_lt (a b : number) : bool :=
  match a, b with
  | NegInf, NegInf => false
  | NegInf, _ => true
  | Fin _, NegInf => false
  | Fin x, Fin y => negb (Qle_bool y x)
  | Fin _, PosInf => true
  | PosInf, _ => false
  end.

Inductive exn :=
| AttributeError (attr : string)
| KeyError (key : string)
| TypeError (msg : string)
| ValueError (msg : string)
| IndexError.

(** The outcome of a call: the returned value, or the exception raised. *)
Inductive outcome (A : Type) :=
| Returns (a : A)
| Raises (e : exn).
Arguments Returns {A} a.
Arguments Raises {A} e.

(** ** Calls on a mutable receiver *)

Module Py.
Section Receiver.
Context {S : Type}.

(** A method body run on a receiver of type [S]. *)
Definition M (A : Type) : Type := S → outcome A * S.

Definition ret {A} (a : A) : M A := λ s, (Returns a, s).
Definition raise {A} (e : exn) : M A := λ s, (Raises e, s).
Definition bind {A B} (m : M A) (k : A → M B) : M B :=
  λ s, match m s with
       | (Returns a, s') => k a s'
       | (Raises e, s') => (Raises e, s')
       end.
Definition get : M S := λ s, (Returns s, s).
Definition put (s : S) : M unit := λ _, (Returns tt, s).
Definition lift {A} (o : outcome A) : M A := λ s, (o, s).

(** [for x in xs: body(x)] *)
Fixpoint for_each {A} (xs : list A) (body : A → M unit) : M unit :=
  match xs with
  | [] => ret tt
  | x :: xs' => bind (body x) (λ _, for_each xs' body)
  end.
End Receiver.
End Py.

Declare Scope py_scope.
Delimit Scope py_scope with py.
Notation "x ⇐ m ;; k" := (Py.bind m (λ x, k))
  (at level 100, m at next level, right associativity) : py_scope.
Notation "m ;;; k" := (Py.bind m (λ _, k))
  (at level 100, right associativity) : py_scope.

(** ** Attribute and item access *)

(** A Python object with plain instance attributes. *)
Abbreviation pyobj := (gmap string pyval).

(** [getattr(o, name)] *)
Definition getattr (o : pyobj) (name : string) : outcome pyval :=
  match o !! name with
  | Some v => Returns v
  | None => Raises (AttributeError name)
  end.

(** [getattr(o, name, dflt)] *)
Definition getattr_default (o : pyobj) (name : string) (dflt : pyval) : pyval :=
  default dflt (o !! name).

(** [o.name = v] *)
Definition setattr (o : pyobj) (name : string) (v : pyval) : pyobj :=
  <[name := v]> o.

(** [d.get(key, dflt)]: a method of dicts only. *)
Definition dict_get (d : pyval) (key : string) (dflt : pyval) : outcome pyval :=
  match d with
  | PyDict m => Returns (default dflt (m !! key))
  | _ => Raises (AttributeError "get")
  end.

(** [d[key]] *)
Definition getitem (d : pyval) (key : string) : outcome pyval :=
  match d with
  | PyDict m =>
      match m !! key with
      | Some v => Returns v
      | None => Raises (KeyError key)
      end
  | _ => Raises (TypeError "object is not subscriptable")
  end.

(** [d[key] = v] *)
Definition setitem (d : pyval) (key : string) (v : pyval) : outcome pyval :=
  match d with
  | PyDict m => Returns (PyDict (<[key := v]> m))
  | _ => Raises (TypeError "object does not support item assignment")
  end.

(** [del d[key]] *)
Definition delitem (d : pyval) (key : string) : outcome pyval :=
  match d with
  | PyDict m =>
      match m !! key with
      | Some _ => Returns (PyDict (delete key m))
      | None => Raises (KeyError key)
      end
  | _ => Raises (TypeError "object does not support item deletion")
  end.

(** [key in d] for a table of the class. *)
Definition contains {V} (d : gmap string V) (key : string) : bool :=
  bool_decide (is_Some (d !! key)).

(** ** The Cryspy adapter ([Interfaces/cryspy.py]) *)

(** The class-level lookup tables. *)
Definition _sample_link : gmap string string :=
  list_to_map [("cif_str", "cif_str")].

Definition _crystal_link : gmap string string :=
  list_to_map
    [("length_a", "length_a");
     ("length_b", "length_b");
     ("length_c", "length_c");
     ("angle_alpha", "angle_alpha");
     ("angle_beta", "angle_beta");
     ("angle_gamma", "angle_gamma")].

Definition _instrument_link : gmap string string :=
  list_to_map
    [("resolution_u", "u");
     ("resolution_v", "v");
     ("resolution_w", "w");
     ("resolution_x", "x");
     ("resolution_y", "y");
     ("wavelength", "wavelength")].

(** What [print(f'Interface1: Value of {value_label} set to {value}')]
    sends to the standard output. *)
Record printed := Interface1 { printed_label : string; printed_value : pyval }.

(** An instance of [Cryspy].  [calculator] is the wrapped calculator object
    (class [Calculators.cryspy.Cryspy], not among the source files embedded here: an
    object with plain attributes, of which the adapter touches [cif_str],
    [conditions], [background] and [pattern]), [debug] the flag
    [self._borg.debug], [stdout] what the methods have printed so far. *)
Record Cryspy := mkCryspy {
  calculator : pyobj;
  _namespace : pyobj;
  debug : bool;
  stdout : list printed;
}.

Definition set_calculator (c : pyobj) (self : Cryspy) : Cryspy :=
  mkCryspy c (_namespace self) (debug self) (stdout self).

Definition print (line : printed) (self : Cryspy) : Cryspy :=
  mkCryspy (calculator self) (_namespace self) (debug self) (stdout self ++ [line]).

Open Scope py_scope.

(** [if value_label in table.keys(): value_label = table[value_label]] *)
Definition translate (table : gmap string string) (value_label : string) : string :=
  if contains table value_label then table !!! value_label else value_label.

(** [if self._borg.debug: print(...)] *)
Definition debug_print (value_label : string) (value : pyval) : @Py.M Cryspy unit :=
  self ⇐ Py.get ;;
  if debug self then Py.put (print (Interface1 value_label value) self)
  else Py.ret tt.

(** The adapter after the debugging line of a setter. *)
Definition logged (value_label : string) (value : pyval) (self : Cryspy) : Cryspy :=
  if debug self then print (Interface1 value_label value) self else self.

Definition get_value (value_label : string) : @Py.M Cryspy pyval :=
  let value_label := translate _sample_link value_label in
  self ⇐ Py.get ;;
  Py.ret (getattr_default (calculator self) value_label PyNone).

Definition set_value (value_label : string) (value : pyval) : @Py.M Cryspy unit :=
  if decide (value_label = "filename") then Py.ret tt
  else
    debug_print value_label value ;;;
    let value_label := translate _sample_link value_label in
    self ⇐ Py.get ;;
    Py.put (set_calculator (setattr (calculator self) "cif_str" value) self).

Definition get_instrument_value (value_label : string) : @Py.M Cryspy pyval :=
  let value_label := translate _instrument_link value_label in
  self ⇐ Py.get ;;
  conditions ⇐ Py.lift (getattr (calculator self) "conditions") ;;
  if decide (value_label = "wavelength") then
    Py.lift (dict_get conditions value_label PyNone)
  else
    resolution ⇐ Py.lift (getitem conditions "resolution") ;;
    Py.lift (dict_get resolution value_label PyNone).

Definition set_instrument_value (value_label : string) (value : pyval)
  : @Py.M Cryspy unit :=
  debug_print value_label value ;;;
  let value_label := translate _instrument_link value_label in
  self ⇐ Py.get ;;
  conditions ⇐ Py.lift (getattr (calculator self) "conditions") ;;
  if decide (value_label = "wavelength") then
    conditions' ⇐ Py.lift (setitem conditions value_label value) ;;
    Py.put (set_calculator (setattr (calculator self) "conditions" conditions') self)
  else
    resolution ⇐ Py.lift (getitem conditions "resolution") ;;
    resolution' ⇐ Py.lift (setitem resolution value_label value) ;;
    conditions' ⇐ Py.lift (setitem conditions "resolution" resolution') ;;
    Py.put (set_calculator (setattr (calculator self) "conditions" conditions') self).

(** The three passthroughs take an index [value_label : int]; the body
    falls off its end, so the call returns [None]. *)
Definition get_background_value (background : pyval) (value_label : Z)
  : @Py.M Cryspy pyval :=
  self ⇐ Py.get ;;
  Py.put (set_calculator (setattr (calculator self) "background" background) self) ;;;
  Py.ret PyNone.

Definition set_background_value (background : pyval) (value_label : Z) (value : pyval)
  : @Py.M Cryspy unit :=
  self ⇐ Py.get ;;
  Py.put (set_calculator (setattr (calculator self) "background" background) self).

Definition set_pattern_value (pattern : pyval) (value_label : Z) (value : pyval)
  : @Py.M Cryspy unit :=
  self ⇐ Py.get ;;
  Py.put (set_calculator (setattr (calculator self) "pattern" pattern) self).

Definition bulk_update (value_label_list : list string) (value_list : list pyval)
    (external : bool) : @Py.M Cryspy unit :=
  Py.for_each (zip value_label_list value_list) (λ '(label, value),
    if contains _sample_link label then set_value label value
    else if contains _instrument_link label then set_instrument_value label value
    else Py.ret tt).

(** [bulk_update] as its contract words it: the paired labels and values in
    list order, each label found in [_sample_link] giving one [set_value]
    call and each label found in [_instrument_link] one
    [set_instrument_value] call, made one after the other. *)
Inductive single_call :=
| SetValue (value_label : string) (value : pyval)
| SetInstrumentValue (value_label : string) (value : pyval).

Definition make_call (c : single_call) : @Py.M Cryspy unit :=
  match c with
  | SetValue l v => set_value l v
  | SetInstrumentValue l v => set_instrument_value l v
  end.

Definition serial_calls (value_label_list : list string) (value_list : list pyval)
  : list single_call :=
  flat_map (λ '(label, value),
      (if contains _sample_link label then [SetValue label value] else [])
      ++ (if contains _instrument_link label then [SetInstrumentValue label value] else []))
    (zip value_label_list value_list).

Definition bulk_update_serial (value_label_list : list string) (value_list : list pyval)
  : @Py.M Cryspy unit :=
  Py.for_each (serial_calls value_label_list value_list) make_call.

(** A calculator as the adapter expects to find it: [conditions] is a
    mapping and holds a nested [resolution] mapping. *)
Definition has_conditions (calc : pyobj) (conditions resolution : gmap string pyval) : Prop :=
  calc !! "conditions" = Some (PyDict conditions)
  ∧ conditions !! "resolution" = Some (PyDict resolution).

Definition example_resolution : gmap string pyval :=
  list_to_map
    [("u", PyFloat (Fin (1 # 10)));
     ("v", PyFloat (Fin (-1 # 10)));
     ("w", PyFloat (Fin (1 # 10)))].

Definition example_conditions : gmap string pyval :=
  list_to_map
    [("wavelength", PyFloat (Fin (5 # 4)));
     ("resolution", PyDict example_resolution)].

Definition example_calculator : pyobj :=
  list_to_map
    [("cif_str", PyStr "data_pnd");
     ("conditions", PyDict example_conditions)].

Definition example_adapter : Cryspy := mkCryspy example_calculator ∅ true [].

(** ** The material container ([sample/elements/materials/material.py]) *)

Definition MATERIAL_DEFAULTS : gmap string pyval :=
  list_to_map
    [("sld", PyDict (list_to_map
       [("description", PyStr "The real scattering length density for a material in e-6 per squared angstrom.");
        ("url", PyStr "https://www.ncnr.nist.gov/resources/activation/");
        ("value", PyFloat (Fin (4186 # 1000)));
        ("units", PyStr "1 / angstrom ** 2");
        ("min", PyFloat NegInf);
        ("max", PyFloat PosInf);
        ("fixed", PyBool true)]));
     ("isld", PyDict (list_to_map
       [("description", PyStr "The imaginary scattering length density for a material in e-6 per squared angstrom.");
        ("url", PyStr "https://www.ncnr.nist.gov/resources/activation/");
        ("value", PyFloat (Fin 0));
        ("units", PyStr "1 / angstrom ** 2");
        ("min", PyFloat NegInf);
        ("max", PyFloat PosInf);
        ("fixed", PyBool true)]))].

(** An outcome chain outside any receiver. *)
Definition and_then {A B} (o : outcome A) (k : A → outcome B) : outcome B :=
  match o with
  | Returns a => k a
  | Raises e => Raises e
  end.
Notation "x ⇠ o ;; k" := (and_then o (λ x, k))
  (at level 100, o at next level, right associativity) : py_scope.

Module Param.
(** Modelled from the spec: the class [Parameter] of the parameter
    library, which the repository imports and does not define.  The spec
    gives it a value, bounds [min, max], a fixed flag, units and a display
    name; the keyword metadata [description] and [url] that
    [MATERIAL_DEFAULTS] passes are kept as given. *)
Record t := mk {
  name : string;
  value : number;
  units : string;
  min : number;
  max : number;
  fixed : bool;
  description : string;
  url : string;
}.

Definition keyword_float (kwargs : gmap string pyval) (key : string) (dflt : number)
  : outcome number :=
  match kwargs !! key with
  | None => Returns dflt
  | Some (PyFloat x) => Returns x
  | Some _ => Raises (TypeError key)
  end.

Definition keyword_str (kwargs : gmap string pyval) (key : string) (dflt : string)
  : outcome string :=
  match kwargs !! key with
  | None => Returns dflt
  | Some (PyStr x) => Returns x
  | Some _ => Raises (TypeError key)
  end.

Definition keyword_bool (kwargs : gmap string pyval) (key : string) (dflt : bool)
  : outcome bool :=
  match kwargs !! key with
  | None => Returns dflt
  | Some (PyBool x) => Returns x
  | Some _ => Raises (TypeError key)
  end.

(** The call [Parameter(name, value, **kwargs)], [value] being given by
    position ([Some]) or left to the keywords ([None]).  A value given
    both ways is Python's "got multiple values for argument" error, a
    value outside the bounds is refused. *)
Definition new (name : string) (positional : option number) (kwargs : gmap string pyval)
  : outcome t :=
  value ⇠ match positional, kwargs !! "value" with
          | Some _, Some _ => Raises (TypeError "got multiple values for argument 'value'")
          | Some x, None => Returns x
          | None, Some (PyFloat x) => Returns x
          | None, Some _ => Raises (ValueError "value must be numeric")
          | None, None => Raises (TypeError "missing required argument 'value'")
          end ;;
  units ⇠ keyword_str kwargs "units" "dimensionless" ;;
  min ⇠ keyword_float kwargs "min" NegInf ;;
  max ⇠ keyword_float kwargs "max" PosInf ;;
  fixed ⇠ keyword_bool kwargs "fixed" false ;;
  description ⇠ keyword_str kwargs "description" "" ;;
  url ⇠ keyword_str kwargs "url" "" ;;
  if number_lt value min then Raises (ValueError "value can not be less than min")
  else if number_lt max value then Raises (ValueError "value can not be greater than max")
  else Returns (mk name value units min max fixed description url).
End Param.

Module Material.
Section Interface.
(** The interface handed to the constructors is only stored. *)
Context {iface : Type}.

(** Modelled from the spec: [BaseElement.__init__], which the repository
    defines in a file not embedded here, keeps [name], [interface] and the
    two parameters on the instance. *)
Record t := mk {
  name : string;
  interface : option iface;
  sld : Param.t;
  isld : Param.t;
}.

Definition __init__ (sld isld : Param.t) (name : string) (interface : option iface) : t :=
  mk name interface sld isld.

Definition default (interface : option iface) : outcome t :=
  d_sld ⇠ getitem (PyDict MATERIAL_DEFAULTS) "sld" ;;
  d_isld ⇠ getitem (PyDict MATERIAL_DEFAULTS) "isld" ;;
  match d_sld, d_isld with
  | PyDict kw_sld, PyDict kw_isld =>
      sld ⇠ Param.new "sld" None kw_sld ;;
      isld ⇠ Param.new "isld" None kw_isld ;;
      Returns (__init__ sld isld "EasyMaterial" interface)
  | _, _ => Raises (TypeError "argument after ** must be a mapping")
  end.

(** [deepcopy] of a value is the value: the deletions below act on the
    copy [default_options], and [MATERIAL_DEFAULTS] stays as it is. *)
Definition from_pars (sld isld : number) (name : string) (interface : option iface)
  : outcome t :=
  let default_options := PyDict MATERIAL_DEFAULTS in
  d_sld ⇠ getitem default_options "sld" ;;
  d_sld ⇠ delitem d_sld "value" ;;
  default_options ⇠ setitem default_options "sld" d_sld ;;
  d_isld ⇠ getitem default_options "isld" ;;
  d_isld ⇠ delitem d_isld "value" ;;
  default_options ⇠ setitem default_options "isld" d_isld ;;
  kw_sld ⇠ getitem default_options "sld" ;;
  kw_isld ⇠ getitem default_options "isld" ;;
  match kw_sld, kw_isld with
  | PyDict kw_sld, PyDict kw_isld =>
      sld ⇠ Param.new "sld" (Some sld) kw_sld ;;
      isld ⇠ Param.new "isld" (Some isld) kw_isld ;;
      Returns (__init__ sld isld name interface)
  | _, _ => Raises (TypeError "argument after ** must be a mapping")
  end.
End Interface.
Arguments t : clear implicits.
End Material.

(** ** The model, its structure and the storage mirror *)

Module Model.
(** Modelled from the spec: the classes [Model], [Structure], [Item],
    [Layers] and [Layer] and the calculator's [storage] live outside the
    source files embedded here; only their test is there.  Following the spec's data
    model, entities are objects with an identity, a layer refers to its
    material and an item to its layers, the structure is the ordered
    sequence of its items, and an attached interface holds, per kind of
    entity, the list of the records that mirror the entities. *)

Definition uid := nat.

Inductive entity :=
| Material (name : string) (sld isld : number)
| Layer (name : string) (material : uid) (thickness roughness : number)
| Item (name : string) (layers : list uid) (repetitions : number).

Abbreviation heap := (gmap uid entity).
Abbreviation storage := (gmap string (list uid)).

Record t := mk {
  name : string;
  structure : list uid;
  scale : number;
  background : number;
  resolution : number;
  interface : option storage;
}.

(** The objects of the program and the model under consideration. *)
Record world := World { objects : heap; model : t }.

Definition set_structure (items : list uid) (m : t) : t :=
  mk (name m) items (scale m) (background m) (resolution m) (interface m).
Definition set_interface (i : option storage) (m : t) : t :=
  mk (name m) (structure m) (scale m) (background m) (resolution m) i.

(** A new object gets an identity no object has. *)
Definition alloc (e : entity) (h : heap) : uid * heap :=
  let id := fresh (dom h) in (id, <[id := e]> h).

(** The deep copy of an entity: a copy of the entity and of everything it
    refers to, each under a fresh identity.  [None] when a reference does
    not lead to an entity of the expected kind. *)
Definition copy_material (m : uid) (h : heap) : option (uid * heap) :=
  match h !! m with
  | Some (Material n s i) => Some (alloc (Material n s i) h)
  | _ => None
  end.

Definition copy_layer (l : uid) (h : heap) : option (uid * heap) :=
  match h !! l with
  | Some (Layer n m t r) =>
      '(m', h1) ← copy_material m h;
      Some (alloc (Layer n m' t r) h1)
  | _ => None
  end.

Fixpoint copy_layers (ls : list uid) (h : heap) : option (list uid * heap) :=
  match ls with
  | [] => Some ([], h)
  | l :: ls' =>
      '(l', h1) ← copy_layer l h;
      '(ls'', h2) ← copy_layers ls' h1;
      Some (l' :: ls'', h2)
  end.

Definition copy_item (i : uid) (h : heap) : option (uid * heap) :=
  match h !! i with
  | Some (Item n ls r) =>
      '(ls', h1) ← copy_layers ls h;
      Some (alloc (Item n ls' r) h1)
  | _ => None
  end.

Definition entity_name (e : entity) : string :=
  match e with
  | Material n _ _ | Layer n _ _ _ | Item n _ _ => n
  end.

(** The field values of an entity, references followed. *)
Definition material_fields : Type := string * number * number.
Definition layer_fields : Type := string * material_fields * number * number.
Definition item_fields : Type := string * list layer_fields * number.

Definition view_material (h : heap) (m : uid) : option material_fields :=
  match h !! m with
  | Some (Material n s i) => Some (n, s, i)
  | _ => None
  end.

Definition view_layer (h : heap) (l : uid) : option layer_fields :=
  match h !! l with
  | Some (Layer n m t r) => mv ← view_material h m; Some (n, mv, t, r)
  | _ => None
  end.

Definition view_item (h : heap) (i : uid) : option item_fields :=
  match h !! i with
  | Some (Item n ls r) => lvs ← mapM (view_layer h) ls; Some (n, lvs, r)
  | _ => None
  end.

(** The identities an entity is made of. *)
Definition footprint_layer (h : heap) (l : uid) : gset uid :=
  {[l]} ∪ match h !! l with
          | Some (Layer _ m _ _) => {[m]}
          | _ => ∅
          end.

Definition footprint_item (h : heap) (i : uid) : gset uid :=
  {[i]} ∪ match h !! i with
          | Some (Item _ ls _) => ⋃ (footprint_layer h <$> ls)
          | _ => ∅
          end.

(** The storage of a newly made interface. *)
Definition reset_storage : storage :=
  list_to_map [("material", []); ("layer", []); ("item", [])].

(** Mirroring: one record per layer, whichever items share it. *)
Definition mirror_layer (st : storage) (l : uid) : storage :=
  if decide (l ∈ st !!! "layer") then st
  else <["layer" := st !!! "layer" ++ [l]]> st.

(** One "item" record for the item and the records of its layers that are
    not there yet. *)
Definition mirror_item (st : storage) (o : uid) (layers : list uid) : storage :=
  foldl mirror_layer (<["item" := st !!! "item" ++ [o]]> st) layers.

(** The record of [o] leaves the list. *)
Fixpoint remove_record (o : uid) (records : list uid) : list uid :=
  match records with
  | [] => []
  | r :: records' => if decide (r = o) then records' else r :: remove_record o records'
  end.

Definition layers_of (h : heap) (o : uid) : outcome (list uid) :=
  match h !! o with
  | Some (Item _ ls _) => Returns ls
  | _ => Raises (AttributeError "layers")
  end.

Definition add_item (o : uid) : @Py.M world unit :=
  w ⇐ Py.get ;;
  layers ⇐ Py.lift (layers_of (objects w) o) ;;
  let m := model w in
  let m := set_structure (structure m ++ [o]) m in
  let m := set_interface ((λ st, mirror_item st o layers) <$> interface m) m in
  Py.put (World (objects w) m).

Definition duplicate_item (idx : nat) : @Py.M world unit :=
  w ⇐ Py.get ;;
  match structure (model w) !! idx with
  | None => Py.raise IndexError
  | Some o =>
      match copy_item o (objects w) with
      | None => Py.raise (AttributeError "layers")
      | Some (o', h') =>
          Py.put (World h' (model w)) ;;;
          add_item o'
      end
  end.

Definition remove_item (idx : nat) : @Py.M world unit :=
  w ⇐ Py.get ;;
  match structure (model w) !! idx with
  | None => Py.raise IndexError
  | Some o =>
      let m := model w in
      let m := set_structure (delete idx (structure m)) m in
      let m := set_interface (alter (remove_record o) "item" <$> interface m) m in
      Py.put (World (objects w) m)
  end.

(** [Model.from_pars(structure, scale, background, resolution, name,
    interface)]: the items of the structure are mirrored in their order. *)
Definition from_pars (h : heap) (items : list uid) (scale background resolution : number)
    (name : string) (interface : option storage) : @Py.M world unit :=
  Py.put (World h (mk name [] scale background resolution interface)) ;;;
  Py.for_each items add_item.

Inductive call :=
| AddItem (o : uid)
| DuplicateItem (idx : nat)
| RemoveItem (idx : nat).

Definition run (c : call) : @Py.M world unit :=
  match c with
  | AddItem o => add_item o
  | DuplicateItem idx => duplicate_item idx
  | RemoveItem idx => remove_item idx
  end.

(** The world after a series of calls, whatever each of them returned. *)
Definition after (calls : list call) (w : world) : world :=
  foldl (λ w c, (run c w).2) w calls.

(** The mirror invariant. *)
Definition mirrored (w : world) : Prop :=
  ∀ st, interface (model w) = Some st → st !!! "item" ≡ₚ structure (model w).

(** A write to a field of the entity [l]: the entity there is replaced. *)
Definition mutate (l : uid) (e : entity) (h : heap) : heap := <[l := e]> h.
End Model.

(** The scenario of [tests/Experiment/test_model.py]: two materials, two
    layers, and two items that hold the two layers in opposite orders. *)
Module Scenario.
Import Model.

Definition m1 : uid := 0.
Definition m2 : uid := 1.
Definition l1 : uid := 2.
Definition l2 : uid := 3.
Definition o1 : uid := 4.
Definition o2 : uid := 5.

Definition test_objects : heap :=
  list_to_map
    [(m1, Material "Boron" (Fin (6908 # 1000)) (Fin (-278 # 1000)));
     (m2, Material "Potassium" (Fin (487 # 1000)) (Fin 0));
     (l1, Layer "thinBoron" m1 (Fin 5) (Fin 2));
     (l2, Layer "thickPotassium" m2 (Fin 50) (Fin 1));
     (o1, Item "twoLayerItem1" [l1; l2] (Fin 2));
     (o2, Item "oneLayerItem2" [l2; l1] (Fin 1))].

Definition nowhere : world := World ∅ (mk "" [] (Fin 0) (Fin 0) (Fin 0) None).

(** [mod = Model.from_pars(d, 2, 1e-5, 2.0, 'newModel', interface)] with
    [d = Structure.from_pars(o1, name='myModel')]. *)
Definition test_world (interface : option storage) : world :=
  (from_pars test_objects [o1] (Fin 2) (Fin (1 # 100000)) (Fin 2) "newModel"
     interface nowhere).2.
End Scenario.

(** ** Reading the adapter's behaviour *)

(** What [get_instrument_value] finds under a native name in a calculator
    whose [conditions] mapping is [c] and whose nested [resolution] mapping
    is [r]. *)
Definition read_instrument (c r : gmap string pyval) (name : string) : pyval :=
  if decide (name = "wavelength") then default PyNone (c !! "wavelength")
  else default PyNone (r !! name).

(** The calculator has the [conditions] mapping and its nested [resolution]
    mapping. *)
Definition well_shaped (calc : pyobj) : Prop :=
  ∃ c r, has_conditions calc c r.

(** The labels [bulk_update] acts on. *)
Definition recognised (label : string) : bool :=
  contains _sample_link label || contains _instrument_link label.

(** The debugging lines of a [bulk_update] over the given pairs. *)
Definition bulk_lines (pairs : list (string * pyval)) : list printed :=
  (λ p, Interface1 p.1 p.2) <$> List.filter (λ p, recognised p.1) pairs.

(** * Properties of the adapter *)

Section Tables.
(** Membership in a table built from a list of pairs is membership of the
    key in the list of its keys. *)
Lemma contains_list_to_map (l : list (string * string)) (key : string) :
  contains (list_to_map l : gmap string string) key = bool_decide (key ∈ l.*1).
Proof.
  unfold contains. apply bool_decide_ext.
  rewrite <- not_eq_None_Some, <- not_elem_of_list_to_map.
  split; [apply dec_stable | tauto].
Qed.

Lemma contains_sample_link (key : string) :
  contains _sample_link key = bool_decide (key = "cif_str").
Proof.
  unfold _sample_link. rewrite contains_list_to_map.
  apply bool_decide_ext. simpl. apply list_elem_of_singleton.
Qed.

Lemma contains_instrument_link (key : string) :
  contains _instrument_link key
  = bool_decide (key ∈ ["resolution_u"; "resolution_v"; "resolution_w";
                        "resolution_x"; "resolution_y"; "wavelength"]).
Proof. unfold _instrument_link. by rewrite contains_list_to_map. Qed.

Lemma contains_crystal_link (key : string) :
  contains _crystal_link key
  = bool_decide (key ∈ ["length_a"; "length_b"; "length_c";
                        "angle_alpha"; "angle_beta"; "angle_gamma"]).
Proof. unfold _crystal_link. by rewrite contains_list_to_map. Qed.

(** No label is a key of both the sample and the instrument table. *)
Lemma sample_not_instrument (key : string) :
  contains _sample_link key = true → contains _instrument_link key = false.
Proof.
  rewrite contains_sample_link, contains_instrument_link.
  intros ->%bool_decide_eq_true. reflexivity.
Qed.

Lemma crystal_neither (key : string) :
  contains _crystal_link key = true →
  contains _sample_link key = false ∧ contains _instrument_link key = false.
Proof.
  rewrite contains_crystal_link, contains_sample_link, contains_instrument_link.
  intros H%bool_decide_eq_true.
  rewrite !elem_of_cons, elem_of_nil in H.
  destruct H as [E | [E | [E | [E | [E | [E | []]]]]]]; by rewrite E.
Qed.

Lemma translate_sample_link (key : string) : translate _sample_link key = key.
Proof.
  unfold translate. rewrite contains_sample_link.
  case_bool_decide; [subst |]; reflexivity.
Qed.

Lemma translate_miss (table : gmap string string) (key : string) :
  contains table key = false → translate table key = key.
Proof. unfold translate. by intros ->. Qed.
End Tables.

Section Adapter.
Implicit Types (self : Cryspy) (value background pattern : pyval).

Lemma debug_print_spec value_label value self :
  debug_print value_label value self = (Returns tt, logged value_label value self).
Proof. unfold debug_print, logged, Py.bind, Py.get. by destruct (debug self). Qed.

Lemma calculator_logged value_label value self :
  calculator (logged value_label value self) = calculator self.
Proof. unfold logged. by destruct (debug self). Qed.

Lemma get_value_spec value_label self :
  get_value value_label self
  = (Returns (getattr_default (calculator self) (translate _sample_link value_label) PyNone),
     self).
Proof. reflexivity. Qed.

Lemma set_value_spec value_label value self :
  value_label ≠ "filename" →
  set_value value_label value self
  = (Returns tt,
     set_calculator (setattr (calculator self) "cif_str" value)
       (logged value_label value self)).
Proof.
  intros Hne. unfold set_value. rewrite decide_False by done.
  unfold Py.bind at 1. rewrite debug_print_spec.
  unfold Py.bind, Py.get, Py.put. by rewrite calculator_logged.
Qed.

Lemma get_instrument_value_wavelength value_label self c :
  calculator self !! "conditions" = Some (PyDict c) →
  translate _instrument_link value_label = "wavelength" →
  get_instrument_value value_label self
  = (Returns (default PyNone (c !! "wavelength")), self).
Proof.
  intros Hc Ht. unfold get_instrument_value. rewrite Ht.
  unfold Py.bind, Py.get, Py.lift, getattr. by rewrite Hc.
Qed.

Lemma get_instrument_value_resolution value_label self c r :
  has_conditions (calculator self) c r →
  translate _instrument_link value_label ≠ "wavelength" →
  get_instrument_value value_label self
  = (Returns (default PyNone (r !! translate _instrument_link value_label)), self).
Proof.
  intros [Hc Hr] Ht. unfold get_instrument_value.
  unfold Py.bind, Py.get, Py.lift, getattr. rewrite Hc.
  rewrite decide_False by done. simpl. by rewrite Hr.
Qed.

Lemma set_instrument_value_wavelength value_label value self c :
  calculator self !! "conditions" = Some (PyDict c) →
  translate _instrument_link value_label = "wavelength" →
  set_instrument_value value_label value self
  = (Returns tt,
     set_calculator
       (setattr (calculator self) "conditions" (PyDict (<["wavelength" := value]> c)))
       (logged value_label value self)).
Proof.
  intros Hc Ht. unfold set_instrument_value.
  unfold Py.bind at 1. rewrite debug_print_spec, Ht.
  unfold Py.bind, Py.get, Py.lift, Py.put, getattr.
  by rewrite calculator_logged, Hc.
Qed.

Lemma set_instrument_value_resolution value_label value self c r :
  has_conditions (calculator self) c r →
  translate _instrument_link value_label ≠ "wavelength" →
  set_instrument_value value_label value self
  = (Returns tt,
     set_calculator
       (setattr (calculator self) "conditions"
          (PyDict (<["resolution" :=
                      PyDict (<[translate _instrument_link value_label := value]> r)]> c)))
       (logged value_label value self)).
Proof.
  intros [Hc Hr] Ht. unfold set_instrument_value.
  unfold Py.bind at 1. rewrite debug_print_spec.
  unfold Py.bind, Py.get, Py.lift, Py.put, getattr.
  rewrite calculator_logged, Hc. rewrite decide_False by done.
  simpl. by rewrite Hr.
Qed.
End Adapter.

Section AdapterClaims.
Implicit Types (self : Cryspy) (value background pattern : pyval).

(** C10: for every value, [set_value("filename", value)] returns at once
    and leaves the adapter, hence every attribute of the calculator and
    [cif_str] among them, as it was, although ["filename"] is a key of
    none of the three translation tables. *)
Theorem set_value_filename_returns_unchanged value self :
  set_value "filename" value self = (Returns tt, self)
  ∧ calculator (set_value "filename" value self).2 !! "cif_str"
    = calculator self !! "cif_str"
  ∧ contains _sample_link "filename" = false
  ∧ contains _crystal_link "filename" = false
  ∧ contains _instrument_link "filename" = false.
Proof. repeat split. Qed.

(** C9: [get_background_value] and [set_background_value] assign the whole
    [background] argument to [calculator.background] and
    [set_pattern_value] assigns [pattern] to [calculator.pattern]; every
    other attribute of the calculator and every other field of the
    adapter stay as they were, the index and the value play no part, and
    [get_background_value] returns [None]. *)
Theorem background_pattern_whole_assignment background pattern (i : Z) value self :
  get_background_value background i self
    = (Returns PyNone,
       set_calculator (setattr (calculator self) "background" background) self)
  ∧ set_background_value background i value self
    = (Returns tt,
       set_calculator (setattr (calculator self) "background" background) self)
  ∧ set_pattern_value pattern i value self
    = (Returns tt,
       set_calculator (setattr (calculator self) "pattern" pattern) self)
  ∧ (∀ (j : Z) value',
       get_background_value background j self = get_background_value background i self
       ∧ set_background_value background j value' self
         = set_background_value background i value self
       ∧ set_pattern_value pattern j value' self = set_pattern_value pattern i value self)
  ∧ (∀ attr x, attr ≠ "background" →
       setattr (calculator self) "background" x !! attr = calculator self !! attr)
  ∧ (∀ attr x, attr ≠ "pattern" →
       setattr (calculator self) "pattern" x !! attr = calculator self !! attr)
  ∧ (∀ c, _namespace (set_calculator c self) = _namespace self
          ∧ debug (set_calculator c self) = debug self
          ∧ stdout (set_calculator c self) = stdout self).
Proof.
  repeat split; intros; unfold setattr; by rewrite lookup_insert_ne.
Qed.

(** C5: [get_instrument_value] and [set_instrument_value] translate the
    label through [_instrument_link]; when the translated name is
    ["wavelength"] they read and write the entry
    [calculator.conditions["wavelength"]], and otherwise the entry of the
    translated name in the nested mapping
    [calculator.conditions["resolution"]]. *)
Theorem instrument_value_routing value_label value self c :
  calculator self !! "conditions" = Some (PyDict c) →
  let name := translate _instrument_link value_label in
  (name = "wavelength" →
     get_instrument_value value_label self
       = (Returns (default PyNone (c !! "wavelength")), self)
     ∧ set_instrument_value value_label value self
       = (Returns tt,
          set_calculator
            (setattr (calculator self) "conditions"
               (PyDict (<["wavelength" := value]> c)))
            (logged value_label value self)))
  ∧ (name ≠ "wavelength" → ∀ r, c !! "resolution" = Some (PyDict r) →
     get_instrument_value value_label self
       = (Returns (default PyNone (r !! name)), self)
     ∧ set_instrument_value value_label value self
       = (Returns tt,
          set_calculator
            (setattr (calculator self) "conditions"
               (PyDict (<["resolution" := PyDict (<[name := value]> r)]> c)))
            (logged value_label value self))).
Proof.
  intros Hc name. split.
  - intros Hn. split.
    + by apply (get_instrument_value_wavelength _ _ c).
    + by apply (set_instrument_value_wavelength _ _ _ c).
  - intros Hn r Hr. split.
    + by apply (get_instrument_value_resolution _ _ c r).
    + by apply (set_instrument_value_resolution _ _ _ c r).
Qed.

(** C3: after [bulk_update(["resolution_u"], [7.5], True)],
    [get_instrument_value("resolution_u")] returns 7.5, on every adapter
    whose calculator holds the [conditions] mapping with its nested
    [resolution] mapping. *)
Theorem bulk_update_resolution_u_roundtrip self c r :
  has_conditions (calculator self) c r →
  ∃ self',
    bulk_update ["resolution_u"] [PyFloat (Fin (15 # 2))] true self = (Returns tt, self')
    ∧ get_instrument_value "resolution_u" self' = (Returns (PyFloat (Fin (15 # 2))), self').
Proof.
  intros Hc. eexists. split.
  - unfold bulk_update. simpl. unfold Py.bind.
    change (contains _sample_link "resolution_u") with false.
    change (contains _instrument_link "resolution_u") with true.
    cbv iota.
    rewrite (set_instrument_value_resolution _ _ _ c r) by done.
    reflexivity.
  - change (translate _instrument_link "resolution_u") with "u".
    rewrite (get_instrument_value_resolution _ _
               (<["resolution" := PyDict (<["u" := PyFloat (Fin (15 # 2))]> r)]> c)
               (<["u" := PyFloat (Fin (15 # 2))]> r)); [| | done].
    + change (translate _instrument_link "resolution_u") with "u".
      by rewrite lookup_insert_eq.
    + split; simpl; unfold setattr; by rewrite lookup_insert_eq.
Qed.

Lemma instrument_value_routing_witness :
  calculator example_adapter !! "conditions" = Some (PyDict example_conditions)
  ∧ translate _instrument_link "resolution_u" ≠ "wavelength"
  ∧ example_conditions !! "resolution" = Some (PyDict example_resolution)
  ∧ translate _instrument_link "wavelength" = "wavelength"
  ∧ get_instrument_value "resolution_u" example_adapter
    = (Returns (default PyNone (example_resolution !! "u")), example_adapter)
  ∧ get_instrument_value "wavelength" example_adapter
    = (Returns (default PyNone (example_conditions !! "wavelength")), example_adapter).
Proof.
  assert (Hc : calculator example_adapter !! "conditions"
               = Some (PyDict example_conditions)) by reflexivity.
  assert (Hn : translate _instrument_link "resolution_u" ≠ "wavelength")
    by (vm_compute; discriminate).
  assert (Hr : example_conditions !! "resolution" = Some (PyDict example_resolution))
    by reflexivity.
  assert (Hw : translate _instrument_link "wavelength" = "wavelength") by reflexivity.
  split; [exact Hc | split; [exact Hn | split; [exact Hr | split; [exact Hw | split]]]].
  - exact (proj1 (proj2 (instrument_value_routing "resolution_u" PyNone
                           example_adapter example_conditions Hc)
                    Hn example_resolution Hr)).
  - exact (proj1 (proj1 (instrument_value_routing "wavelength" PyNone
                           example_adapter example_conditions Hc) Hw)).
Defined.

Lemma bulk_update_resolution_u_roundtrip_witness :
  has_conditions (calculator example_adapter) example_conditions example_resolution
  ∧ ∃ self',
      bulk_update ["resolution_u"] [PyFloat (Fin (15 # 2))] true example_adapter
        = (Returns tt, self')
      ∧ get_instrument_value "resolution_u" self'
        = (Returns (PyFloat (Fin (15 # 2))), self').
Proof.
  assert (Hc : has_conditions (calculator example_adapter)
                 example_conditions example_resolution)
    by (split; reflexivity).
  split; [exact Hc |].
  exact (bulk_update_resolution_u_roundtrip example_adapter
           example_conditions example_resolution Hc).
Defined.

(** A loop over a concatenation is the loop over its first part followed
    by the loop over its second part. *)
Lemma for_each_app {S A} (xs ys : list A) (body : A → @Py.M S unit) (s : S) :
  Py.for_each (xs ++ ys) body s
  = Py.bind (Py.for_each xs body) (λ _, Py.for_each ys body) s.
Proof.
  revert s. induction xs as [| x xs IH]; intros s; [reflexivity |].
  simpl. unfold Py.bind.
  destruct (body x s) as [[[] | e] s']; [| reflexivity].
  rewrite IH. reflexivity.
Qed.

(** C4: a pair of [bulk_update] whose label is a key of neither
    [_sample_link] nor [_instrument_link] is dropped: the call behaves as
    the call without the pair, so the pair raises nothing and updates
    nothing; on its own it returns and leaves the adapter as it was.  The
    keys of [_crystal_link] are such labels. *)
Theorem bulk_update_drops_unknown_label
    (labels labels' : list string) (values values' : list pyval)
    (label : string) value (external : bool) self :
  contains _sample_link label = false →
  contains _instrument_link label = false →
  length labels = length values →
  bulk_update (labels ++ label :: labels') (values ++ value :: values') external self
    = bulk_update (labels ++ labels') (values ++ values') external self
  ∧ bulk_update [label] [value] external self = (Returns tt, self)
  ∧ (∀ key, contains _crystal_link key = true →
       contains _sample_link key = false ∧ contains _instrument_link key = false).
Proof.
  intros Hs Hi Hlen. split; [| split].
  - unfold bulk_update.
    rewrite !zip_with_app by done. simpl.
    rewrite !for_each_app. unfold Py.bind.
    destruct (Py.for_each _ _ self) as [[[] | e] s']; [| reflexivity].
    simpl. rewrite Hs, Hi. reflexivity.
  - unfold bulk_update. simpl. rewrite Hs, Hi. reflexivity.
  - apply crystal_neither.
Qed.

Lemma bulk_update_drops_unknown_label_witness :
  contains _sample_link "length_a" = false
  ∧ contains _instrument_link "length_a" = false
  ∧ length ["resolution_u"] = length [PyFloat (Fin (15 # 2))]
  ∧ bulk_update ["resolution_u"; "length_a"; "wavelength"]
      [PyFloat (Fin (15 # 2)); PyFloat (Fin 4); PyFloat (Fin (3 # 2))] true example_adapter
    = bulk_update ["resolution_u"; "wavelength"]
        [PyFloat (Fin (15 # 2)); PyFloat (Fin (3 # 2))] true example_adapter
  ∧ bulk_update ["length_a"] [PyFloat (Fin 4)] true example_adapter
    = (Returns tt, example_adapter).
Proof.
  assert (Hs : contains _sample_link "length_a" = false) by reflexivity.
  assert (Hi : contains _instrument_link "length_a" = false) by reflexivity.
  assert (Hl : length ["resolution_u"] = length [PyFloat (Fin (15 # 2))]) by reflexivity.
  pose proof (bulk_update_drops_unknown_label ["resolution_u"] ["wavelength"]
                [PyFloat (Fin (15 # 2))] [PyFloat (Fin (3 # 2))]
                "length_a" (PyFloat (Fin 4)) true example_adapter Hs Hi Hl) as H.
  split; [exact Hs | split; [exact Hi | split; [exact Hl | split]]];
    [exact (proj1 H) | exact (proj1 (proj2 H))].
Defined.

(** The body of the loop of [bulk_update] makes the calls that
    [serial_calls] lists for the pair. *)
Lemma bulk_update_serial_pairs (pairs : list (string * pyval)) self :
  Py.for_each pairs (λ '(label, value),
      if contains _sample_link label then set_value label value
      else if contains _instrument_link label then set_instrument_value label value
      else Py.ret tt) self
  = Py.for_each
      (flat_map (λ '(label, value),
           (if contains _sample_link label then [SetValue label value] else [])
           ++ (if contains _instrument_link label
               then [SetInstrumentValue label value] else []))
         pairs)
      make_call self.
Proof.
  revert self. induction pairs as [| [label value] pairs IH]; intros self;
    [reflexivity |].
  cbn [flat_map Py.for_each]. rewrite for_each_app.
  destruct (contains _sample_link label) eqn:Hs.
  - rewrite (sample_not_instrument _ Hs). cbn [app Py.for_each make_call].
    unfold Py.bind.
    destruct (set_value label value self) as [[[] | e] s']; [apply IH | reflexivity].
  - destruct (contains _instrument_link label) eqn:Hi;
      cbn [app Py.for_each make_call]; unfold Py.bind.
    + destruct (set_instrument_value label value self) as [[[] | e] s'];
        [apply IH | reflexivity].
    + apply IH.
Qed.

(** C8: [bulk_update] returns what the serial sequence of single calls
    returns and leaves the adapter, and so its calculator, in the state
    that sequence leaves it in: in list order over the zipped pairs,
    [set_value] for each label found in [_sample_link] and
    [set_instrument_value] for each label found in [_instrument_link]. *)
Theorem bulk_update_is_serial
    (labels : list string) (values : list pyval) (external : bool) self :
  bulk_update labels values external self = bulk_update_serial labels values self.
Proof. apply bulk_update_serial_pairs. Qed.
End AdapterClaims.

Section SampleValues.
Implicit Types (self : Cryspy) (value : pyval).

(** For a label outside the sample table, ["length_a"], [set_value]
    leaves the attribute of that name unset and overwrites [cif_str], so a
    following [get_value] of the label does not return the value; for
    ["filename"] it sets nothing at all. *)
Lemma set_value_not_generic_passthrough :
  calculator (set_value "length_a" (PyFloat (Fin 4)) example_adapter).2
    !! translate _sample_link "length_a" ≠ Some (PyFloat (Fin 4))
  ∧ (get_value "length_a"
       (set_value "length_a" (PyFloat (Fin 4)) example_adapter).2).1
    ≠ Returns (PyFloat (Fin 4))
  ∧ calculator (set_value "length_a" (PyFloat (Fin 4)) example_adapter).2 !! "cif_str"
    = Some (PyFloat (Fin 4))
  ∧ calculator (set_value "filename" (PyStr "pnd.cif") example_adapter).2
      !! translate _sample_link "filename" ≠ Some (PyStr "pnd.cif").
Proof. vm_compute. repeat split; discriminate. Qed.

(** C2, amended: [get_value(L)] reads, for every label [L], the attribute
    of the calculator named by the sample-link translation of [L] ([None]
    when there is no such attribute); for every [L] that is a key of
    [_sample_link], [set_value(L, v)] sets that attribute to [v], leaves
    the other attributes as they were, and [get_value(L)] then returns
    [v]; [set_value("filename", v)] sets nothing. *)
Theorem sample_value_passthrough (value_label : string) value self :
  get_value value_label self
    = (Returns (getattr_default (calculator self)
                  (translate _sample_link value_label) PyNone), self)
  ∧ (contains _sample_link value_label = true →
     ∃ self',
       set_value value_label value self = (Returns tt, self')
       ∧ calculator self'
         = setattr (calculator self) (translate _sample_link value_label) value
       ∧ get_value value_label self' = (Returns value, self'))
  ∧ set_value "filename" value self = (Returns tt, self).
Proof.
  split; [reflexivity | split; [| reflexivity]].
  rewrite contains_sample_link. intros ->%bool_decide_eq_true.
  eexists. split; [by apply set_value_spec | split].
  - reflexivity.
  - rewrite get_value_spec. simpl.
    unfold getattr_default, setattr.
    change (translate _sample_link "cif_str") with "cif_str".
    by rewrite lookup_insert_eq.
Qed.

Lemma sample_value_passthrough_witness :
  contains _sample_link "cif_str" = true
  ∧ ∃ self',
      set_value "cif_str" (PyStr "data_new") example_adapter = (Returns tt, self')
      ∧ calculator self'
        = setattr (calculator example_adapter) (translate _sample_link "cif_str")
            (PyStr "data_new")
      ∧ get_value "cif_str" self' = (Returns (PyStr "data_new"), self').
Proof.
  assert (Hk : contains _sample_link "cif_str" = true) by reflexivity.
  split; [exact Hk |].
  exact (proj1 (proj2 (sample_value_passthrough "cif_str" (PyStr "data_new")
                         example_adapter)) Hk).
Defined.
End SampleValues.

(** * Properties of the material container *)

Section MaterialClaims.
Context {iface : Type}.

(** C6: [Material.from_pars(sld, isld, name)] returns a material whose
    [sld] and [isld] parameters hold the supplied values and whose name is
    the supplied name, while the bounds, the units and the fixed flag of
    both parameters are those of [MATERIAL_DEFAULTS]. *)
Theorem from_pars_reads_back (sld isld : number) (name : string)
    (interface : option iface) :
  ∃ (m : Material.t iface) (d_sld d_isld : gmap string pyval),
    Material.from_pars sld isld name interface = Returns m
    ∧ Param.value (Material.sld m) = sld
    ∧ Param.value (Material.isld m) = isld
    ∧ Material.name m = name
    ∧ MATERIAL_DEFAULTS !! "sld" = Some (PyDict d_sld)
    ∧ MATERIAL_DEFAULTS !! "isld" = Some (PyDict d_isld)
    ∧ d_sld !! "min" = Some (PyFloat (Param.min (Material.sld m)))
    ∧ d_sld !! "max" = Some (PyFloat (Param.max (Material.sld m)))
    ∧ d_sld !! "units" = Some (PyStr (Param.units (Material.sld m)))
    ∧ d_sld !! "fixed" = Some (PyBool (Param.fixed (Material.sld m)))
    ∧ d_isld !! "min" = Some (PyFloat (Param.min (Material.isld m)))
    ∧ d_isld !! "max" = Some (PyFloat (Param.max (Material.isld m)))
    ∧ d_isld !! "units" = Some (PyStr (Param.units (Material.isld m)))
    ∧ d_isld !! "fixed" = Some (PyBool (Param.fixed (Material.isld m))).
Proof.
  destruct sld as [| s |], isld as [| i |];
    (eexists; eexists; eexists; split; [vm_compute; reflexivity |]);
    repeat split.
Qed.
End MaterialClaims.

(** * Properties of the model *)

Section Copies.
Import Model.
Implicit Types (h : heap) (e : entity).

Lemma alloc_spec e h :
  ∃ id, alloc e h = (id, <[id := e]> h) ∧ h !! id = None.
Proof.
  exists (fresh (dom h)). split; [reflexivity |].
  apply not_elem_of_dom, is_fresh.
Qed.

(** What an entity looks like does not change when the heap grows. *)
Lemma view_material_weaken h h' m v :
  h ⊆ h' → view_material h m = Some v → view_material h' m = Some v.
Proof.
  intros Hsub. unfold view_material.
  destruct (h !! m) as [e |] eqn:E; [| done].
  by rewrite (lookup_weaken _ _ _ _ E Hsub).
Qed.

Lemma view_layer_weaken h h' l v :
  h ⊆ h' → view_layer h l = Some v → view_layer h' l = Some v.
Proof.
  intros Hsub. unfold view_layer.
  destruct (h !! l) as [e |] eqn:E; [| done].
  rewrite (lookup_weaken _ _ _ _ E Hsub).
  destruct e as [| n m t r |]; try done.
  destruct (view_material h m) as [mv |] eqn:Em; [| done].
  by rewrite (view_material_weaken _ _ _ _ Hsub Em).
Qed.

Lemma view_layers_weaken h h' ls vs :
  h ⊆ h' → mapM (view_layer h) ls = Some vs → mapM (view_layer h') ls = Some vs.
Proof.
  intros Hsub. rewrite !mapM_Some. intros Hall.
  eapply Forall2_impl; [exact Hall |].
  intros l v. by apply view_layer_weaken.
Qed.

Lemma view_item_weaken h h' o v :
  h ⊆ h' → view_item h o = Some v → view_item h' o = Some v.
Proof.
  intros Hsub. unfold view_item.
  destruct (h !! o) as [e |] eqn:E; [| done].
  rewrite (lookup_weaken _ _ _ _ E Hsub).
  destruct e as [| | n ls r]; try done.
  destruct (mapM (view_layer h) ls) as [lvs |] eqn:El; [| done].
  by rewrite (view_layers_weaken _ _ _ _ Hsub El).
Qed.

Lemma view_layer_is_Some h l v : view_layer h l = Some v → is_Some (h !! l).
Proof. unfold view_layer. destruct (h !! l); [eauto | done]. Qed.

Lemma view_item_inv h o v :
  view_item h o = Some v →
  ∃ n ls r lvs, h !! o = Some (Item n ls r)
                ∧ mapM (view_layer h) ls = Some lvs ∧ v = (n, lvs, r).
Proof.
  unfold view_item. destruct (h !! o) as [[| | n ls r] |]; try done.
  destruct (mapM (view_layer h) ls) as [lvs |] eqn:El; [| done].
  intros [= <-]. by exists n, ls, r, lvs.
Qed.

Lemma footprint_layer_weaken h h' l :
  h ⊆ h' → is_Some (h !! l) → footprint_layer h' l = footprint_layer h l.
Proof.
  intros Hsub [e E]. unfold footprint_layer.
  by rewrite E, (lookup_weaken _ _ _ _ E Hsub).
Qed.

(** The copy of a material: a new object with the fields of the old. *)
Lemma copy_material_spec m h v :
  view_material h m = Some v →
  ∃ m' h', copy_material m h = Some (m', h')
           ∧ h ⊆ h' ∧ h !! m' = None ∧ view_material h' m' = Some v.
Proof.
  unfold view_material, copy_material.
  destruct (h !! m) as [[n s i | |] |]; try done. intros [= <-].
  destruct (alloc_spec (Material n s i) h) as (m' & -> & Hfresh).
  exists m', (<[m' := Material n s i]> h).
  split; [done | split; [by apply insert_subseteq | split; [done |]]].
  by rewrite lookup_insert_eq.
Qed.

Lemma copy_layer_spec l h v :
  view_layer h l = Some v →
  ∃ l' h', copy_layer l h = Some (l', h')
           ∧ h ⊆ h' ∧ view_layer h' l' = Some v
           ∧ (∀ x, x ∈ footprint_layer h' l' → h !! x = None).
Proof.
  unfold view_layer at 1, copy_layer.
  destruct (h !! l) as [[| n m t r |] |]; try done.
  destruct (view_material h m) as [mv |] eqn:Em; [| done]. intros [= <-].
  destruct (copy_material_spec _ _ _ Em) as (m' & h1 & -> & Hsub & Hm' & Hv).
  simpl.
  destruct (alloc_spec (Layer n m' t r) h1) as (l' & -> & Hl').
  exists l', (<[l' := Layer n m' t r]> h1).
  assert (h1 ⊆ <[l' := Layer n m' t r]> h1) as Hsub1 by by apply insert_subseteq.
  split; [done | split; [by etrans | split]].
  - unfold view_layer. rewrite lookup_insert_eq.
    by rewrite (view_material_weaken _ _ _ _ Hsub1 Hv).
  - intros x. unfold footprint_layer. rewrite lookup_insert_eq.
    rewrite elem_of_union, !elem_of_singleton. intros [-> | ->]; [| done].
    by apply (lookup_weaken_None h h1).
Qed.

Lemma copy_layers_spec ls h vs :
  mapM (view_layer h) ls = Some vs →
  ∃ ls' h', copy_layers ls h = Some (ls', h')
            ∧ h ⊆ h' ∧ mapM (view_layer h') ls' = Some vs
            ∧ (∀ l' x, l' ∈ ls' → x ∈ footprint_layer h' l' → h !! x = None).
Proof.
  revert h vs. induction ls as [| l ls IH]; intros h vs.
  - intros [= <-]. exists [], h. repeat split; try done.
    intros l' x Hl'. by apply elem_of_nil in Hl'.
  - rewrite mapM_Some. intros Hall.
    apply Forall2_cons_inv_l in Hall as (v & vs' & Hv & Hvs & ->).
    apply mapM_Some in Hvs.
    destruct (copy_layer_spec _ _ _ Hv) as (l' & h1 & Hc & Hsub & Hv' & Hfp).
    destruct (IH h1 vs' (view_layers_weaken _ _ _ _ Hsub Hvs))
      as (ls' & h2 & Hcs & Hsub' & Hvs' & Hfps).
    exists (l' :: ls'), h2. simpl. rewrite Hc. simpl. rewrite Hcs. simpl.
    split; [done | split; [by etrans | split]].
    + rewrite (view_layer_weaken h1 h2 l' v Hsub' Hv'). simpl.
      by rewrite Hvs'.
    + intros k x [-> | Hk]%elem_of_cons Hx.
      * apply Hfp.
        by rewrite <- (footprint_layer_weaken h1 h2 l' Hsub'
                        (view_layer_is_Some _ _ _ Hv')).
      * apply (lookup_weaken_None h h1); [| done]. by apply (Hfps k).
Qed.

Lemma copy_item_spec o h v :
  view_item h o = Some v →
  ∃ o' h', copy_item o h = Some (o', h')
           ∧ h ⊆ h' ∧ view_item h' o' = Some v
           ∧ (∀ x, x ∈ footprint_item h' o' → h !! x = None).
Proof.
  intros (n & ls & r & lvs & Ho & Hls & ->)%view_item_inv.
  unfold copy_item. rewrite Ho.
  destruct (copy_layers_spec _ _ _ Hls) as (ls' & h1 & -> & Hsub & Hvs & Hfp).
  simpl.
  destruct (alloc_spec (Item n ls' r) h1) as (o' & -> & Ho').
  exists o', (<[o' := Item n ls' r]> h1).
  assert (h1 ⊆ <[o' := Item n ls' r]> h1) as Hsub1 by by apply insert_subseteq.
  split; [done | split; [by etrans | split]].
  - unfold view_item. rewrite lookup_insert_eq.
    by rewrite (view_layers_weaken _ _ _ _ Hsub1 Hvs).
  - intros x. unfold footprint_item. rewrite lookup_insert_eq.
    rewrite elem_of_union, elem_of_singleton, elem_of_union_list.
    intros [-> | (X & HX & Hx)]; [by apply (lookup_weaken_None h h1) |].
    apply list_elem_of_fmap in HX as (l' & -> & Hl').
    apply (Hfp l' x Hl').
    rewrite <- (footprint_layer_weaken h1 _ l' Hsub1); [done |]. clear Hx.
    apply mapM_Some in Hvs.
    apply list_elem_of_lookup_1 in Hl' as [i Hi].
    destruct (Forall2_lookup_l _ _ _ _ _ Hvs Hi) as (lv & _ & Hlv).
    eauto using view_layer_is_Some.
Qed.
End Copies.

Section Duplicate.
Import Model.
Implicit Types (w : world) (h : heap).

Lemma add_item_returns o w n ls r :
  objects w !! o = Some (Item n ls r) →
  add_item o w
  = (Returns tt,
     World (objects w)
       (set_interface ((λ st, mirror_item st o ls) <$> interface (model w))
          (set_structure (structure (model w) ++ [o]) (model w)))).
Proof.
  intros Ho. unfold add_item, Py.bind, Py.get, Py.lift, layers_of.
  by rewrite Ho.
Qed.

Lemma add_item_raises o w :
  (∀ n ls r, objects w !! o ≠ Some (Item n ls r)) →
  add_item o w = (Raises (AttributeError "layers"), w).
Proof.
  intros Ho. unfold add_item, Py.bind, Py.get, Py.lift, layers_of.
  destruct (objects w !! o) as [[| | n ls r] |] eqn:E; try done.
  by destruct (Ho n ls r).
Qed.

Lemma view_item_name h o v :
  view_item h o = Some v → entity_name <$> h !! o = Some v.1.1.
Proof. intros (n & ls & r & lvs & -> & _ & ->)%view_item_inv. reflexivity. Qed.

(** C7: for an index within the structure, [duplicate_item] returns and
    appends one new item, so that the length grows by exactly 1; the new
    item has the field values of the item at the index, its name and the
    fields of its layers and their materials included, under identities
    that no object had before, the identity of the item among them; and
    whatever is then written to an object of the copy, the item at the
    index and every object that was there before read as before. *)
Theorem duplicate_item_independent_copy w (idx : nat) (o : uid) (v : item_fields) :
  structure (model w) !! idx = Some o →
  view_item (objects w) o = Some v →
  ∃ o' w',
    duplicate_item idx w = (Returns tt, w')
    ∧ structure (model w') = structure (model w) ++ [o']
    ∧ length (structure (model w')) = S (length (structure (model w)))
    ∧ view_item (objects w') o' = Some v
    ∧ entity_name <$> objects w' !! o' = entity_name <$> objects w !! o
    ∧ o' ≠ o
    ∧ (∀ x, x ∈ footprint_item (objects w') o' → objects w !! x = None)
    ∧ view_item (objects w') o = Some v
    ∧ (∀ x e, x ∈ footprint_item (objects w') o' →
         view_item (mutate x e (objects w')) o = Some v
         ∧ ∀ k, is_Some (objects w !! k) →
                mutate x e (objects w') !! k = objects w !! k).
Proof.
  intros Hidx Hv.
  destruct (copy_item_spec _ _ _ Hv) as (o' & h' & Hc & Hsub & Hv' & Hfp).
  destruct (view_item_inv _ _ _ Hv') as (n & ls' & r & lvs & Ho' & _ & _).
  assert (objects w !! o' = None) as Hfresh.
  { apply Hfp. unfold footprint_item. set_solver. }
  eexists o', _. split; [| split; [| split; [| split; [| split; [| split;
    [| split; [| split]]]]]]].
  - unfold duplicate_item, Py.bind at 1, Py.get. rewrite Hidx, Hc.
    unfold Py.bind, Py.put. by erewrite add_item_returns.
  - reflexivity.
  - simpl. rewrite length_app. simpl. lia.
  - exact Hv'.
  - simpl. by rewrite (view_item_name _ _ _ Hv'), (view_item_name _ _ _ Hv).
  - intros ->. apply view_item_inv in Hv as (? & ? & ? & ? & Ho & _).
    by rewrite Ho in Hfresh.
  - exact Hfp.
  - simpl. by apply (view_item_weaken (objects w)).
  - intros x e Hx. simpl in *.
    assert (objects w ⊆ mutate x e h') as Hsub'.
    { apply insert_subseteq_r; [by apply Hfp | done]. }
    split; [by apply (view_item_weaken (objects w)) |].
    intros k [ek Hk]. rewrite Hk. by apply (lookup_weaken (objects w)).
Qed.

Lemma duplicate_item_independent_copy_witness :
  let w := (add_item Scenario.o2 (Scenario.test_world None)).2 in
  let v := ("oneLayerItem2",
            [("thickPotassium", ("Potassium", Fin (487 # 1000), Fin 0), Fin 50, Fin 1);
             ("thinBoron", ("Boron", Fin (6908 # 1000), Fin (-278 # 1000)), Fin 5, Fin 2)],
            Fin 1) in
  structure (model w) !! 1 = Some Scenario.o2
  ∧ view_item (objects w) Scenario.o2 = Some v
  ∧ ∃ o' w',
      duplicate_item 1 w = (Returns tt, w')
      ∧ structure (model w') = structure (model w) ++ [o']
      ∧ length (structure (model w')) = S (length (structure (model w)))
      ∧ view_item (objects w') o' = Some v
      ∧ entity_name <$> objects w' !! o' = entity_name <$> objects w !! Scenario.o2
      ∧ o' ≠ Scenario.o2
      ∧ (∀ x, x ∈ footprint_item (objects w') o' → objects w !! x = None)
      ∧ view_item (objects w') Scenario.o2 = Some v
      ∧ (∀ x e, x ∈ footprint_item (objects w') o' →
           view_item (mutate x e (objects w')) Scenario.o2 = Some v
           ∧ ∀ k, is_Some (objects w !! k) →
                  mutate x e (objects w') !! k = objects w !! k).
Proof.
  intros w v.
  assert (H1 : structure (model w) !! 1 = Some Scenario.o2) by reflexivity.
  assert (H2 : view_item (objects w) Scenario.o2 = Some v) by (vm_compute; reflexivity).
  split; [exact H1 | split; [exact H2 |]].
  exact (duplicate_item_independent_copy w 1 Scenario.o2 v H1 H2).
Defined.
End Duplicate.

Section Mirror.
Import Model.
Implicit Types (w : world) (st : storage) (ls : list uid).

Lemma mirror_layer_item st l : mirror_layer st l !!! "item" = st !!! "item".
Proof.
  unfold mirror_layer. case_decide; [done |].
  by rewrite lookup_total_insert_ne.
Qed.

Lemma mirror_layers_item st ls : foldl mirror_layer st ls !!! "item" = st !!! "item".
Proof.
  revert st. induction ls as [| l ls IH]; intros st; [done |].
  simpl. by rewrite IH, mirror_layer_item.
Qed.

Lemma mirror_item_item st o ls : mirror_item st o ls !!! "item" = st !!! "item" ++ [o].
Proof.
  unfold mirror_item. by rewrite mirror_layers_item, lookup_total_insert_eq.
Qed.

Lemma size_known_layer (l : uid) (X Y : gset uid) :
  l ∈ Y → size (({[l]} ∪ X) ∖ Y) = size (X ∖ Y).
Proof.
  intros Hl. f_equal. apply set_eq. intros x.
  rewrite !elem_of_difference, elem_of_union, elem_of_singleton.
  split; [| tauto]. intros [[E | Hx] Hy]; [| tauto].
  rewrite E in Hy. tauto.
Qed.

Lemma size_new_layer (l : uid) (X Y : gset uid) :
  l ∉ Y → size (({[l]} ∪ X) ∖ Y) = S (size (X ∖ (Y ∪ {[l]}))).
Proof.
  intros Hl.
  assert (({[l]} ∪ X) ∖ Y = {[l]} ∪ X ∖ (Y ∪ {[l]})) as ->.
  { apply set_eq. intros x.
    rewrite !elem_of_union, !elem_of_difference, !elem_of_union, !elem_of_singleton.
    destruct (decide (x = l)) as [E |]; [rewrite E |]; tauto. }
  rewrite size_union, size_singleton; [done |].
  intros x. rewrite elem_of_singleton, elem_of_difference, elem_of_union,
    elem_of_singleton. tauto.
Qed.

(** The layer records grow by the layers that are not mirrored yet, each
    counted once. *)
Lemma mirror_layers_layer st ls :
  length (foldl mirror_layer st ls !!! "layer")
  = length (st !!! "layer")
    + size (list_to_set ls ∖ list_to_set (st !!! "layer") : gset uid).
Proof.
  revert st. induction ls as [| l ls IH]; intros st; simpl.
  - rewrite difference_disjoint_L by apply disjoint_empty_l.
    rewrite size_empty. lia.
  - rewrite IH. unfold mirror_layer. case_decide as Hl.
    + rewrite size_known_layer; [done |]. by apply elem_of_list_to_set.
    + rewrite lookup_total_insert_eq, length_app, list_to_set_snoc_L.
      rewrite size_new_layer; [simpl; lia |]. by rewrite elem_of_list_to_set.
Qed.

Lemma mirror_item_layer st o ls :
  length (mirror_item st o ls !!! "layer")
  = length (st !!! "layer")
    + size (list_to_set ls ∖ list_to_set (st !!! "layer") : gset uid).
Proof.
  unfold mirror_item. rewrite mirror_layers_layer.
  by rewrite lookup_total_insert_ne.
Qed.

Lemma remove_record_Permutation o (records : list uid) :
  o ∈ records → records ≡ₚ o :: remove_record o records.
Proof.
  induction records as [| r records IH]; intros Ho.
  - by apply elem_of_nil in Ho.
  - simpl. case_decide as Hr; [by subst |].
    apply elem_of_cons in Ho as [-> | Ho]; [done |].
    rewrite (Permutation_swap r o). by rewrite <- IH.
Qed.

Lemma remove_record_alter o st :
  alter (remove_record o) "item" st !!! "item" = remove_record o (st !!! "item").
Proof.
  rewrite lookup_total_alter_eq, lookup_total_alt.
  by destruct (st !! "item").
Qed.

(** Each call keeps the mirror, whether it returns or raises. *)
Lemma add_item_mirrored o w : mirrored w → mirrored (add_item o w).2.
Proof.
  intros Hw.
  destruct (objects w !! o) as [[| | n ls r] |] eqn:Ho;
    try (rewrite add_item_raises; [done | intros ???; congruence]).
  rewrite (add_item_returns _ _ _ _ _ Ho). simpl.
  intros st'. simpl.
  destruct (interface (model w)) as [st |] eqn:Hi; [| done].
  intros [= <-]. rewrite mirror_item_item. by rewrite (Hw st Hi).
Qed.

Lemma duplicate_item_mirrored idx w : mirrored w → mirrored (duplicate_item idx w).2.
Proof.
  intros Hw. unfold duplicate_item, Py.bind at 1, Py.get.
  destruct (structure (model w) !! idx) as [o |]; [| done].
  destruct (copy_item o (objects w)) as [[o' h'] |]; [| done].
  unfold Py.bind, Py.put.
  pose proof (add_item_mirrored o' (World h' (model w)) Hw) as H.
  by destruct (add_item o' (World h' (model w))) as [[[] | e] w'].
Qed.

Lemma remove_item_mirrored idx w : mirrored w → mirrored (remove_item idx w).2.
Proof.
  intros Hw. unfold remove_item, Py.bind, Py.get.
  destruct (structure (model w) !! idx) as [o |] eqn:Hidx; [| done].
  simpl. intros st'. simpl.
  destruct (interface (model w)) as [st |] eqn:Hi; [| done].
  intros [= <-]. rewrite remove_record_alter.
  specialize (Hw st Hi).
  apply (Permutation_cons_inv (a := o)).
  rewrite <- remove_record_Permutation.
  - rewrite Hw. by apply delete_Permutation.
  - rewrite Hw. by apply list_elem_of_lookup_2 with idx.
Qed.

Lemma run_mirrored c w : mirrored w → mirrored (run c w).2.
Proof.
  destruct c; [apply add_item_mirrored | apply duplicate_item_mirrored
              | apply remove_item_mirrored].
Qed.

Lemma after_mirrored calls w : mirrored w → mirrored (after calls w).
Proof.
  revert w. induction calls as [| c calls IH]; intros w Hw; [done |].
  apply IH, run_mirrored, Hw.
Qed.

(** No call detaches the interface. *)
Lemma add_item_attached o w :
  is_Some (interface (model w)) → is_Some (interface (model (add_item o w).2)).
Proof.
  intros [st Hst].
  destruct (objects w !! o) as [[| | n ls r] |] eqn:Ho;
    try (rewrite add_item_raises; [simpl; eauto | intros ???; congruence]).
  rewrite (add_item_returns _ _ _ _ _ Ho). simpl. rewrite Hst. simpl. eauto.
Qed.

Lemma run_attached c w :
  is_Some (interface (model w)) → is_Some (interface (model (run c w).2)).
Proof.
  intros Hw. destruct c as [o | idx | idx]; simpl.
  - by apply add_item_attached.
  - unfold duplicate_item, Py.bind at 1, Py.get.
    destruct (structure (model w) !! idx) as [o |]; [| done].
    destruct (copy_item o (objects w)) as [[o' h'] |]; [| done].
    unfold Py.bind, Py.put.
    pose proof (add_item_attached o' (World h' (model w)) Hw) as H.
    by destruct (add_item o' (World h' (model w))) as [[[] | e] w'].
  - unfold remove_item, Py.bind, Py.get.
    destruct (structure (model w) !! idx) as [o |]; [| done].
    destruct Hw as [st Hst]. simpl. rewrite Hst. simpl. eauto.
Qed.

Lemma after_attached calls w :
  is_Some (interface (model w)) → is_Some (interface (model (after calls w))).
Proof.
  revert w. induction calls as [| c calls IH]; intros w Hw; [done |].
  apply IH, run_attached, Hw.
Qed.

(** A loop keeps what each round keeps. *)
Lemma for_each_keeps {S A} (P : S → Prop) (xs : list A) (body : A → @Py.M S unit) s :
  (∀ x s, P s → P (body x s).2) → P s → P (Py.for_each xs body s).2.
Proof.
  intros Hbody. revert s. induction xs as [| x xs IH]; intros s Hs; [done |].
  simpl. unfold Py.bind. specialize (Hbody x s Hs).
  destruct (body x s) as [[[] | e] s']; [by apply IH | done].
Qed.

Lemma from_pars_mirrored h items sc bg res nm w0 :
  let w := (from_pars h items sc bg res nm (Some reset_storage) w0).2 in
  mirrored w ∧ is_Some (interface (model w)).
Proof.
  unfold from_pars, Py.bind, Py.put.
  apply (for_each_keeps (λ w, mirrored w ∧ is_Some (interface (model w)))).
  - intros o w [Hm Ha]. split; [by apply add_item_mirrored |].
    apply (run_attached (AddItem o)), Ha.
  - split; [| by eexists]. by intros st [= <-].
Qed.
End Mirror.

Section MirrorClaims.
Import Model.
Implicit Types (w : world) (st : storage).

(** C1: a model built with a newly made interface keeps, through every
    series of [add_item], [duplicate_item] and [remove_item] calls, as
    many "item" records in the storage as the structure has items; and an
    [add_item] on it returns, lengthens the structure and the "item"
    records by exactly 1, and lengthens the "layer" records by the number
    of layers of the item that were not mirrored yet. *)
Theorem storage_mirrors_structure (h : heap) (items : list uid) (sc bg res : number)
    (nm : string) w0 (calls : list call) :
  let w := after calls (from_pars h items sc bg res nm (Some reset_storage) w0).2 in
  ∃ st,
    interface (model w) = Some st
    ∧ length (st !!! "item") = length (structure (model w))
    ∧ ∀ o n ls r,
        objects w !! o = Some (Item n ls r) →
        ∃ w' st',
          add_item o w = (Returns tt, w')
          ∧ interface (model w') = Some st'
          ∧ length (structure (model w')) = S (length (structure (model w)))
          ∧ length (st' !!! "item") = S (length (st !!! "item"))
          ∧ length (st' !!! "layer")
            = length (st !!! "layer")
              + size (list_to_set ls ∖ list_to_set (st !!! "layer") : gset uid).
Proof.
  intros w.
  destruct (from_pars_mirrored h items sc bg res nm w0) as [Hm Ha].
  pose proof (after_mirrored calls _ Hm) as Hm'.
  destruct (after_attached calls _ Ha) as [st Hst].
  fold w in Hm', Hst. exists st.
  split; [done | split; [by rewrite (Hm' st Hst) |]].
  intros o n ls r Ho. eexists _, _.
  split; [by apply (add_item_returns o w n ls r) |].
  simpl. rewrite Hst. simpl. split; [reflexivity |].
  rewrite length_app, mirror_item_item, length_app, mirror_item_layer. simpl.
  repeat split; lia.
Qed.

Lemma storage_mirrors_structure_witness :
  let w := after [AddItem Scenario.o2; DuplicateItem 1; RemoveItem 0]
             (Scenario.test_world (Some reset_storage)) in
  objects w !! Scenario.o1
    = Some (Item "twoLayerItem1" [Scenario.l1; Scenario.l2] (Fin 2))
  ∧ ∃ st,
      interface (model w) = Some st
      ∧ length (st !!! "item") = length (structure (model w))
      ∧ ∃ w' st',
          add_item Scenario.o1 w = (Returns tt, w')
          ∧ interface (model w') = Some st'
          ∧ length (structure (model w')) = S (length (structure (model w)))
          ∧ length (st' !!! "item") = S (length (st !!! "item"))
          ∧ length (st' !!! "layer")
            = length (st !!! "layer")
              + size (list_to_set [Scenario.l1; Scenario.l2]
                        ∖ list_to_set (st !!! "layer") : gset uid).
Proof.
  intros w.
  assert (Ho : objects w !! Scenario.o1
               = Some (Item "twoLayerItem1" [Scenario.l1; Scenario.l2] (Fin 2)))
    by (vm_compute; reflexivity).
  split; [exact Ho |].
  destruct (storage_mirrors_structure Scenario.test_objects [Scenario.o1]
              (Fin 2) (Fin (1 # 100000)) (Fin 2) "newModel" Scenario.nowhere
              [AddItem Scenario.o2; DuplicateItem 1; RemoveItem 0])
    as (st & Hst & Hlen & Hadd).
  exists st. split; [exact Hst | split; [exact Hlen |]].
  exact (Hadd _ _ _ _ Ho).
Defined.

(** The assertions of the tests on the scenario. *)
Example test_add_item_with_interface :
  let w := Scenario.test_world (Some reset_storage) in
  let w' := (add_item Scenario.o2 w).2 in
  (λ st, (length (st !!! "item"), length (st !!! "layer"))) <$> interface (model w)
    = Some (1, 2)
  ∧ (λ st, (length (st !!! "item"), length (st !!! "layer"))) <$> interface (model w')
    = Some (2, 2).
Proof. vm_compute. split; reflexivity. Qed.

Example test_duplicate_item :
  let w := after [AddItem Scenario.o2; DuplicateItem 1] (Scenario.test_world None) in
  length (structure (model w)) = 3
  ∧ (structure (model w) !! 2) ≫= (λ o, entity_name <$> objects w !! o)
    = Some "oneLayerItem2".
Proof. vm_compute. split; reflexivity. Qed.

Example test_remove_item_with_interface :
  let w := after [AddItem Scenario.o2; RemoveItem 0]
             (Scenario.test_world (Some reset_storage)) in
  (λ st, (length (st !!! "item"), length (st !!! "layer"))) <$> interface (model w)
    = Some (1, 2).
Proof. vm_compute. reflexivity. Qed.
End MirrorClaims.


(** * Further properties of the adapter *)

Section Instrument.
Implicit Types (self : Cryspy) (value : pyval) (c r : gmap string pyval).

Lemma get_instrument_value_read value_label self c r :
  has_conditions (calculator self) c r →
  get_instrument_value value_label self
  = (Returns (read_instrument c r (translate _instrument_link value_label)), self).
Proof.
  intros Hc. unfold read_instrument. case_decide as Hn.
  - apply (get_instrument_value_wavelength _ _ c); [apply Hc | done].
  - by apply (get_instrument_value_resolution _ _ c r).
Qed.

(** A write through [set_instrument_value] returns, keeps the shape of the
    calculator, and changes what is read under the written name only. *)
Lemma set_instrument_value_write value_label value self c r :
  has_conditions (calculator self) c r →
  ∃ c' r',
    set_instrument_value value_label value self
    = (Returns tt,
       set_calculator (setattr (calculator self) "conditions" (PyDict c'))
         (logged value_label value self))
    ∧ c' !! "resolution" = Some (PyDict r')
    ∧ ∀ name, read_instrument c' r' name
              = if decide (name = translate _instrument_link value_label)
                then value else read_instrument c r name.
Proof.
  intros Hc. pose proof Hc as [Hcond Hres].
  destruct (decide (translate _instrument_link value_label = "wavelength")) as [Hn | Hn].
  - exists (<["wavelength" := value]> c), r.
    split; [by apply (set_instrument_value_wavelength _ _ _ c) | split].
    + by rewrite lookup_insert_ne.
    + intros name. rewrite Hn. unfold read_instrument.
      case_decide; [by rewrite lookup_insert_eq | done].
  - exists (<["resolution" := PyDict (<[translate _instrument_link value_label := value]> r)]> c),
      (<[translate _instrument_link value_label := value]> r).
    split; [by apply (set_instrument_value_resolution _ _ _ c r) | split].
    + by rewrite lookup_insert_eq.
    + intros name. unfold read_instrument.
      destruct (decide (name = "wavelength")) as [-> | Hw].
      * rewrite decide_False by done. by rewrite lookup_insert_ne.
      * case_decide as Hm; [subst name; by rewrite lookup_insert_eq |].
        by rewrite lookup_insert_ne.
Qed.

Lemma has_conditions_setattr calc c' r' :
  c' !! "resolution" = Some (PyDict r') →
  has_conditions (setattr calc "conditions" (PyDict c')) c' r'.
Proof. intros Hr. split; [apply lookup_insert_eq | done]. Qed.

(** A value written under a label is read back under every label with the
    same native name, the label itself first of all. *)
Theorem instrument_value_roundtrip (value_label value_label' : string) value self :
  well_shaped (calculator self) →
  translate _instrument_link value_label' = translate _instrument_link value_label →
  ∃ self',
    set_instrument_value value_label value self = (Returns tt, self')
    ∧ get_instrument_value value_label' self' = (Returns value, self').
Proof.
  intros (c & r & Hc) Heq.
  destruct (set_instrument_value_write value_label value self c r Hc)
    as (c' & r' & -> & Hr' & Hread).
  eexists. split; [reflexivity |].
  rewrite (get_instrument_value_read _ _ c' r') by by apply has_conditions_setattr.
  by rewrite Hread, Heq, decide_True.
Qed.

Lemma instrument_value_roundtrip_witness :
  well_shaped (calculator example_adapter)
  ∧ translate _instrument_link "u" = translate _instrument_link "resolution_u"
  ∧ ∃ self',
      set_instrument_value "resolution_u" (PyFloat (Fin 3)) example_adapter
        = (Returns tt, self')
      ∧ get_instrument_value "u" self' = (Returns (PyFloat (Fin 3)), self').
Proof.
  assert (Hs : well_shaped (calculator example_adapter)).
  { exists example_conditions, example_resolution. split; reflexivity. }
  assert (He : translate _instrument_link "u" = translate _instrument_link "resolution_u")
    by reflexivity.
  split; [exact Hs | split; [exact He |]].
  exact (instrument_value_roundtrip "resolution_u" "u" (PyFloat (Fin 3))
           example_adapter Hs He).
Defined.

(** A write under one native name leaves what is read under every other
    native name as it was. *)
Theorem instrument_value_independent (value_label value_label' : string) value self :
  well_shaped (calculator self) →
  translate _instrument_link value_label' ≠ translate _instrument_link value_label →
  ∃ self' x,
    set_instrument_value value_label value self = (Returns tt, self')
    ∧ get_instrument_value value_label' self = (Returns x, self)
    ∧ get_instrument_value value_label' self' = (Returns x, self').
Proof.
  intros (c & r & Hc) Hne.
  destruct (set_instrument_value_write value_label value self c r Hc)
    as (c' & r' & -> & Hr' & Hread).
  eexists _, _. split; [reflexivity | split].
  - by apply (get_instrument_value_read _ _ c r).
  - rewrite (get_instrument_value_read _ _ c' r') by by apply has_conditions_setattr.
    by rewrite Hread, decide_False.
Qed.

Lemma instrument_value_independent_witness :
  well_shaped (calculator example_adapter)
  ∧ translate _instrument_link "wavelength" ≠ translate _instrument_link "resolution_v"
  ∧ ∃ self' x,
      set_instrument_value "resolution_v" (PyFloat (Fin 3)) example_adapter
        = (Returns tt, self')
      ∧ get_instrument_value "wavelength" example_adapter = (Returns x, example_adapter)
      ∧ get_instrument_value "wavelength" self' = (Returns x, self').
Proof.
  assert (Hs : well_shaped (calculator example_adapter)).
  { exists example_conditions, example_resolution. split; reflexivity. }
  assert (Hn : translate _instrument_link "wavelength"
               ≠ translate _instrument_link "resolution_v")
    by (vm_compute; discriminate).
  split; [exact Hs | split; [exact Hn |]].
  exact (instrument_value_independent "resolution_v" "wavelength" (PyFloat (Fin 3))
           example_adapter Hs Hn).
Defined.
End Instrument.

Section InstrumentEdges.
Implicit Types (self : Cryspy) (value : pyval) (c r : gmap string pyval).


End InstrumentEdges.

Section SampleEdges.
Implicit Types (self : Cryspy) (value : pyval).

(** Whatever the label, ["filename"] apart, [set_value] writes the value to
    [cif_str]: the value is then read back under ["cif_str"], and every
    other label reads as before. *)
Theorem set_value_writes_cif_str (value_label value_label' : string) value self :
  value_label ≠ "filename" →
  ∃ self',
    set_value value_label value self = (Returns tt, self')
    ∧ get_value "cif_str" self' = (Returns value, self')
    ∧ (value_label' ≠ "cif_str" →
       (get_value value_label' self').1 = (get_value value_label' self).1).
Proof.
  intros Hne. eexists. split; [by apply set_value_spec | split].
  - rewrite get_value_spec. simpl. unfold getattr_default, setattr.
    change (translate _sample_link "cif_str") with "cif_str".
    by rewrite lookup_insert_eq.
  - intros Hne'. rewrite !get_value_spec, translate_sample_link. simpl.
    unfold getattr_default, setattr.
    by rewrite lookup_insert_ne.
Qed.

Lemma set_value_writes_cif_str_witness :
  "length_a" ≠ "filename"
  ∧ ∃ self',
      set_value "length_a" (PyFloat (Fin 4)) example_adapter = (Returns tt, self')
      ∧ get_value "cif_str" self' = (Returns (PyFloat (Fin 4)), self')
      ∧ ("length_a" ≠ "cif_str" →
         (get_value "length_a" self').1 = (get_value "length_a" example_adapter).1).
Proof.
  assert (Hn : "length_a" ≠ "filename") by discriminate.
  split; [exact Hn |].
  exact (set_value_writes_cif_str "length_a" "length_a" (PyFloat (Fin 4))
           example_adapter Hn).
Defined.
End SampleEdges.

(** * Further properties of [bulk_update] *)

Section Bulk.
Implicit Types (self : Cryspy) (value : pyval) (labels : list string)
  (values : list pyval) (external : bool).

(** An update over two lists laid end to end is the update over the first
    followed, when that returned, by the update over the second. *)
Theorem bulk_update_app labels labels' values values' external self :
  length labels = length values →
  bulk_update (labels ++ labels') (values ++ values') external self
  = Py.bind (bulk_update labels values external)
      (λ _, bulk_update labels' values' external) self.
Proof.
  intros Hlen. unfold bulk_update.
  rewrite zip_with_app by done. apply for_each_app.
Qed.

Lemma bulk_update_app_witness :
  length ["resolution_u"] = length [PyFloat (Fin 3)]
  ∧ bulk_update (["resolution_u"] ++ ["cif_str"])
      ([PyFloat (Fin 3)] ++ [PyStr "data_new"]) true example_adapter
    = Py.bind (bulk_update ["resolution_u"] [PyFloat (Fin 3)] true)
        (λ _, bulk_update ["cif_str"] [PyStr "data_new"] true) example_adapter.
Proof.
  assert (Hl : length ["resolution_u"] = length [PyFloat (Fin 3)]) by reflexivity.
  split; [exact Hl |].
  exact (bulk_update_app ["resolution_u"] ["cif_str"] [PyFloat (Fin 3)]
           [PyStr "data_new"] true example_adapter Hl).
Defined.

Lemma zip_take_min {A B} (l : list A) (k : list B) :
  zip l k = zip (take (length l `min` length k) l) (take (length l `min` length k) k).
Proof.
  revert k. induction l as [| a l IH]; intros [| b k]; simpl; try done.
  by rewrite <- IH.
Qed.

(** The lists are paired as far as the shorter one goes: the labels, or the
    values, beyond its length play no part. *)
Theorem bulk_update_truncates labels values external self :
  bulk_update labels values external self
  = bulk_update (take (length labels `min` length values) labels)
      (take (length labels `min` length values) values) external self.
Proof. unfold bulk_update. by rewrite <- zip_take_min. Qed.

Lemma stdout_logged value_label value self :
  stdout (logged value_label value self)
  = stdout self ++ (if debug self then [Interface1 value_label value] else []).
Proof.
  unfold logged. destruct (debug self); simpl; [reflexivity |].
  symmetry. apply app_nil_r.
Qed.

Lemma debug_logged value_label value self :
  debug (logged value_label value self) = debug self.
Proof. unfold logged. destruct (debug self) eqn:E; simpl; by rewrite E. Qed.

Lemma namespace_logged value_label value self :
  _namespace (logged value_label value self) = _namespace self.
Proof. unfold logged. by destruct (debug self). Qed.

(** One round of the loop on a calculator of the expected shape. *)
Lemma bulk_round_shaped (label : string) value self :
  well_shaped (calculator self) →
  ∃ self',
    (if contains _sample_link label then set_value label value
     else if contains _instrument_link label then set_instrument_value label value
     else Py.ret tt) self = (Returns tt, self')
    ∧ well_shaped (calculator self')
    ∧ debug self' = debug self
    ∧ _namespace self' = _namespace self
    ∧ stdout self'
      = stdout self
        ++ (if debug self then bulk_lines [(label, value)] else []).
Proof.
  intros (c & r & Hc). unfold bulk_lines, recognised. simpl.
  destruct (contains _sample_link label) eqn:Hs.
  - rewrite contains_sample_link in Hs. apply bool_decide_eq_true in Hs as ->.
    eexists. split; [by apply set_value_spec |].
    simpl. rewrite debug_logged, namespace_logged, stdout_logged.
    split; [| done]. exists c, r. destruct Hc as [Hc Hr].
    split; [| done]. unfold setattr. by rewrite lookup_insert_ne.
  - destruct (contains _instrument_link label) eqn:Hi; simpl.
    + destruct (set_instrument_value_write label value self c r Hc)
        as (c' & r' & -> & Hr' & _).
      eexists. split; [reflexivity |].
      simpl. rewrite debug_logged, namespace_logged, stdout_logged.
      split; [| done]. exists c', r'. by apply has_conditions_setattr.
    + exists self. split; [done |].
      split; [by exists c, r |].
      by destruct (debug self); rewrite app_nil_r.
Qed.

Lemma bulk_lines_cons (p : string * pyval) (pairs : list (string * pyval)) :
  bulk_lines (p :: pairs) = bulk_lines [p] ++ bulk_lines pairs.
Proof. unfold bulk_lines. simpl. by destruct (recognised p.1). Qed.

Lemma bulk_pairs_shaped (pairs : list (string * pyval)) self :
  well_shaped (calculator self) →
  ∃ self',
    Py.for_each pairs (λ '(label, value),
        if contains _sample_link label then set_value label value
        else if contains _instrument_link label then set_instrument_value label value
        else Py.ret tt) self = (Returns tt, self')
    ∧ well_shaped (calculator self')
    ∧ debug self' = debug self
    ∧ _namespace self' = _namespace self
    ∧ stdout self' = stdout self ++ (if debug self then bulk_lines pairs else []).
Proof.
  revert self. induction pairs as [| [label value] pairs IH]; intros self Hs.
  - exists self. repeat split; try done. by destruct (debug self); rewrite app_nil_r.
  - destruct (bulk_round_shaped label value self Hs)
      as (self1 & Hround & Hs1 & Hd1 & Hn1 & Ho1).
    destruct (IH self1 Hs1) as (self' & Hrest & Hs' & Hd' & Hn' & Ho').
    exists self'. cbn [Py.for_each]. unfold Py.bind. rewrite Hround, Hrest.
    split; [done | split; [done | split; [congruence | split; [congruence |]]]].
    rewrite Ho', Ho1, Hd1, (bulk_lines_cons (label, value) pairs).
    destruct (debug self); [by rewrite app_assoc | by rewrite !app_nil_r].
Qed.

(** On a calculator that has the [conditions] mapping and its nested
    [resolution] mapping, [bulk_update] returns whatever the labels and the
    values are, and the calculator it leaves has that shape again. *)
Theorem bulk_update_returns labels values external self :
  well_shaped (calculator self) →
  ∃ self',
    bulk_update labels values external self = (Returns tt, self')
    ∧ well_shaped (calculator self').
Proof.
  intros Hs.
  destruct (bulk_pairs_shaped (zip labels values) self Hs) as (self' & H & Hs' & _).
  by exists self'.
Qed.

Lemma bulk_update_returns_witness :
  well_shaped (calculator example_adapter)
  ∧ ∃ self',
      bulk_update ["wavelength"; "length_a"; "cif_str"; "resolution_y"]
        [PyFloat (Fin 2); PyFloat (Fin 4); PyStr "data_new"] false example_adapter
        = (Returns tt, self')
      ∧ well_shaped (calculator self').
Proof.
  assert (Hs : well_shaped (calculator example_adapter)).
  { exists example_conditions, example_resolution. split; reflexivity. }
  split; [exact Hs |].
  exact (bulk_update_returns ["wavelength"; "length_a"; "cif_str"; "resolution_y"]
           [PyFloat (Fin 2); PyFloat (Fin 4); PyStr "data_new"] false
           example_adapter Hs).
Defined.

(** With the debugging flag set, [bulk_update] prints one line per pair
    whose label is in one of the two tables, in list order and with the
    label as it was passed; with the flag off it prints nothing.  The flag
    and the namespace are left as they were. *)
Theorem bulk_update_prints labels values external self :
  well_shaped (calculator self) →
  let self' := (bulk_update labels values external self).2 in
  stdout self'
    = stdout self ++ (if debug self then bulk_lines (zip labels values) else [])
  ∧ debug self' = debug self
  ∧ _namespace self' = _namespace self.
Proof.
  intros Hs.
  destruct (bulk_pairs_shaped (zip labels values) self Hs)
    as (self' & H & _ & Hd & Hn & Ho).
  unfold bulk_update. rewrite H. simpl. by rewrite Ho, Hd, Hn.
Qed.

Lemma bulk_update_prints_witness :
  well_shaped (calculator example_adapter)
  ∧ stdout (bulk_update ["wavelength"; "length_a"; "cif_str"]
              [PyFloat (Fin 2); PyFloat (Fin 4); PyStr "data_new"] true
              example_adapter).2
    = stdout example_adapter
      ++ (if debug example_adapter
          then bulk_lines (zip ["wavelength"; "length_a"; "cif_str"]
                             [PyFloat (Fin 2); PyFloat (Fin 4); PyStr "data_new"])
          else []).
Proof.
  assert (Hs : well_shaped (calculator example_adapter)).
  { exists example_conditions, example_resolution. split; reflexivity. }
  split; [exact Hs |].
  exact (proj1 (bulk_update_prints ["wavelength"; "length_a"; "cif_str"]
                  [PyFloat (Fin 2); PyFloat (Fin 4); PyStr "data_new"] true
                  example_adapter Hs)).
Defined.
End Bulk.

Section BulkReads.
Implicit Types (self : Cryspy) (value : pyval) (labels : list string)
  (values : list pyval) (external : bool).

(** After a [bulk_update] whose last pair has a label of one of the two
    tables, the getter of that table returns the value of that pair for the
    label, whatever pairs came before. *)
Theorem bulk_update_last_pair_read labels values (label : string) value external self :
  well_shaped (calculator self) →
  length labels = length values →
  recognised label = true →
  ∃ self',
    bulk_update (labels ++ [label]) (values ++ [value]) external self = (Returns tt, self')
    ∧ (if contains _sample_link label then get_value label self'
       else get_instrument_value label self') = (Returns value, self').
Proof.
  intros Hs Hlen Hrec. unfold bulk_update.
  rewrite zip_with_app by done. rewrite for_each_app. unfold Py.bind at 1.
  destruct (bulk_pairs_shaped (zip labels values) self Hs) as (self1 & -> & Hs1 & _).
  simpl. unfold Py.bind, recognised in *.
  destruct (contains _sample_link label) eqn:Hsl.
  - rewrite contains_sample_link in Hsl. apply bool_decide_eq_true in Hsl as ->.
    rewrite set_value_spec by done. eexists. split; [reflexivity |].
    rewrite get_value_spec. simpl. unfold getattr_default, setattr.
    change (translate _sample_link "cif_str") with "cif_str".
    by rewrite lookup_insert_eq.
  - simpl in Hrec. rewrite Hrec. destruct Hs1 as (c & r & Hc).
    destruct (set_instrument_value_write label value self1 c r Hc)
      as (c' & r' & -> & Hr' & Hread).
    eexists. split; [reflexivity |].
    rewrite (get_instrument_value_read _ _ c' r') by by apply has_conditions_setattr.
    by rewrite Hread, decide_True.
Qed.

Lemma bulk_update_last_pair_read_witness :
  well_shaped (calculator example_adapter)
  ∧ length ["resolution_w"; "wavelength"] = length [PyFloat (Fin 1); PyFloat (Fin 2)]
  ∧ recognised "resolution_w" = true
  ∧ ∃ self',
      bulk_update (["resolution_w"; "wavelength"] ++ ["resolution_w"])
        ([PyFloat (Fin 1); PyFloat (Fin 2)] ++ [PyFloat (Fin 3)]) true example_adapter
        = (Returns tt, self')
      ∧ (if contains _sample_link "resolution_w" then get_value "resolution_w" self'
         else get_instrument_value "resolution_w" self')
        = (Returns (PyFloat (Fin 3)), self').
Proof.
  assert (Hs : well_shaped (calculator example_adapter)).
  { exists example_conditions, example_resolution. split; reflexivity. }
  assert (Hl : length ["resolution_w"; "wavelength"]
               = length [PyFloat (Fin 1); PyFloat (Fin 2)]) by reflexivity.
  assert (Hr : recognised "resolution_w" = true) by reflexivity.
  split; [exact Hs | split; [exact Hl | split; [exact Hr |]]].
  exact (bulk_update_last_pair_read ["resolution_w"; "wavelength"]
           [PyFloat (Fin 1); PyFloat (Fin 2)] "resolution_w" (PyFloat (Fin 3)) true
           example_adapter Hs Hl Hr).
Defined.

Lemma set_value_filename_eq value self :
  set_value "filename" value self = (Returns tt, self).
Proof. reflexivity. Qed.

Lemma logged_quiet (value_label : string) value self :
  debug self = false → logged value_label value self = self.
Proof. unfold logged. by intros ->. Qed.

(** A sample write and an instrument write do not interfere: made in either
    order they both return and leave the same calculator, and the same
    adapter when the debugging flag is off. *)
Theorem set_value_set_instrument_value_commute
    (value_label value_label' : string) value value' self :
  well_shaped (calculator self) →
  ∃ self1 self2,
    Py.bind (set_value value_label value)
      (λ _, set_instrument_value value_label' value') self = (Returns tt, self1)
    ∧ Py.bind (set_instrument_value value_label' value')
        (λ _, set_value value_label value) self = (Returns tt, self2)
    ∧ calculator self1 = calculator self2
    ∧ (debug self = false → self1 = self2).
Proof.
  intros (c & r & Hc).
  destruct (decide (value_label = "filename")) as [-> | Hne].
  - destruct (set_instrument_value_write value_label' value' self c r Hc)
      as (c' & r' & Hset & _).
    unfold Py.bind. rewrite set_value_filename_eq, Hset, set_value_filename_eq.
    eauto 10.
  - unfold Py.bind. rewrite set_value_spec by done.
    set (self0 := set_calculator (setattr (calculator self) "cif_str" value)
                    (logged value_label value self)).
    assert (has_conditions (calculator self0) c r) as Hc0.
    { destruct Hc as [Hcond Hres]. split; [| done].
      subst self0. simpl. unfold setattr. by rewrite lookup_insert_ne. }
    destruct (decide (translate _instrument_link value_label' = "wavelength")) as [Hw | Hw].
    + rewrite (set_instrument_value_wavelength _ _ _ c (proj1 Hc0) Hw).
      rewrite (set_instrument_value_wavelength _ _ _ c (proj1 Hc) Hw).
      rewrite set_value_spec by done. eexists _, _.
      split; [reflexivity | split; [reflexivity | split]].
      * subst self0. simpl. unfold setattr. by apply insert_insert_ne.
      * intros Hd. subst self0. rewrite !logged_quiet by (simpl; done).
        unfold set_calculator, setattr. simpl. f_equal. by apply insert_insert_ne.
    + rewrite (set_instrument_value_resolution _ _ _ c r Hc0 Hw).
      rewrite (set_instrument_value_resolution _ _ _ c r Hc Hw).
      rewrite set_value_spec by done. eexists _, _.
      split; [reflexivity | split; [reflexivity | split]].
      * subst self0. simpl. unfold setattr. by apply insert_insert_ne.
      * intros Hd. subst self0. rewrite !logged_quiet by (simpl; done).
        unfold set_calculator, setattr. simpl. f_equal. by apply insert_insert_ne.
Qed.

Lemma set_value_set_instrument_value_commute_witness :
  well_shaped (calculator example_adapter)
  ∧ ∃ self1 self2,
      Py.bind (set_value "cif_str" (PyStr "data_new"))
        (λ _, set_instrument_value "wavelength" (PyFloat (Fin 2))) example_adapter
        = (Returns tt, self1)
      ∧ Py.bind (set_instrument_value "wavelength" (PyFloat (Fin 2)))
          (λ _, set_value "cif_str" (PyStr "data_new")) example_adapter
        = (Returns tt, self2)
      ∧ calculator self1 = calculator self2
      ∧ (debug example_adapter = false → self1 = self2).
Proof.
  assert (Hs : well_shaped (calculator example_adapter)).
  { exists example_conditions, example_resolution. split; reflexivity. }
  split; [exact Hs |].
  exact (set_value_set_instrument_value_commute "cif_str" "wavelength"
           (PyStr "data_new") (PyFloat (Fin 2)) example_adapter Hs).
Defined.
End BulkReads.

Section Translation.
(** The instrument table sends no two of its keys to one native name, a
    translated name translates to itself, so that a native name such as
    ["u"] can be used wherever its label ["resolution_u"] can, and the
    sample and crystal tables rename nothing. *)
Theorem translation_tables_sound (value_label value_label' : string) :
  (contains _instrument_link value_label = true →
   contains _instrument_link value_label' = true →
   translate _instrument_link value_label = translate _instrument_link value_label' →
   value_label = value_label')
  ∧ translate _instrument_link (translate _instrument_link value_label)
    = translate _instrument_link value_label
  ∧ translate _sample_link value_label = value_label
  ∧ translate _crystal_link value_label = value_label.
Proof.
  split; [| split; [| split]].
  - rewrite !contains_instrument_link. intros H H'.
    apply bool_decide_eq_true in H, H'.
    rewrite !elem_of_cons, elem_of_nil in H, H'.
    destruct H as [E | [E | [E | [E | [E | [E | []]]]]]];
      destruct H' as [E' | [E' | [E' | [E' | [E' | [E' | []]]]]]];
      rewrite E, E'; vm_compute; intros Ht; first [reflexivity | discriminate Ht].
  - destruct (contains _instrument_link value_label) eqn:H.
    + rewrite contains_instrument_link in H. apply bool_decide_eq_true in H.
      rewrite !elem_of_cons, elem_of_nil in H.
      destruct H as [E | [E | [E | [E | [E | [E | []]]]]]]; rewrite E; reflexivity.
    + by rewrite !(translate_miss _ _ H).
  - apply translate_sample_link.
  - destruct (contains _crystal_link value_label) eqn:H.
    + rewrite contains_crystal_link in H. apply bool_decide_eq_true in H.
      rewrite !elem_of_cons, elem_of_nil in H.
      destruct H as [E | [E | [E | [E | [E | [E | []]]]]]]; rewrite E; reflexivity.
    + by apply translate_miss.
Qed.

Lemma translation_tables_sound_witness :
  contains _instrument_link "resolution_u" = true
  ∧ contains _instrument_link "resolution_u" = true
  ∧ translate _instrument_link "resolution_u" = translate _instrument_link "resolution_u"
  ∧ "resolution_u" = "resolution_u"
  ∧ translate _instrument_link (translate _instrument_link "resolution_u")
    = translate _instrument_link "resolution_u".
Proof.
  assert (Hk : contains _instrument_link "resolution_u" = true) by reflexivity.
  assert (Ht : translate _instrument_link "resolution_u"
               = translate _instrument_link "resolution_u") by reflexivity.
  split; [exact Hk | split; [exact Hk | split; [exact Ht | split]]].
  - exact (proj1 (translation_tables_sound "resolution_u" "resolution_u") Hk Hk Ht).
  - exact (proj1 (proj2 (translation_tables_sound "resolution_u" "resolution_u"))).
Defined.
End Translation.

Section Passthroughs.
Implicit Types (self : Cryspy) (value background pattern : pyval).

(** What [get_instrument_value] returns depends on the [conditions]
    attribute of the calculator alone. *)
Lemma get_instrument_value_conditions (value_label : string) self self' :
  calculator self' !! "conditions" = calculator self !! "conditions" →
  (get_instrument_value value_label self').1 = (get_instrument_value value_label self).1.
Proof.
  intros H. unfold get_instrument_value, Py.bind, Py.get, Py.lift, getattr.
  rewrite H. destruct (calculator self !! "conditions") as [cond |]; [| done].
  case_decide; [done |].
  by destruct (getitem cond "resolution").
Qed.

(** The object handed to a background or pattern passthrough is read back
    whole by [get_value] under the name of the attribute, the index and the
    value being lost; the instrument values and the CIF string read as
    before. *)
Theorem passthrough_read_back background pattern (i : Z) value (value_label : string) self :
  (get_value "background" (set_background_value background i value self).2).1
    = Returns background
  ∧ (get_value "background" (get_background_value background i self).2).1
    = Returns background
  ∧ (get_value "pattern" (set_pattern_value pattern i value self).2).1
    = Returns pattern
  ∧ (get_instrument_value value_label (set_background_value background i value self).2).1
    = (get_instrument_value value_label self).1
  ∧ (get_instrument_value value_label (get_background_value background i self).2).1
    = (get_instrument_value value_label self).1
  ∧ (get_instrument_value value_label (set_pattern_value pattern i value self).2).1
    = (get_instrument_value value_label self).1
  ∧ (get_value "cif_str" (set_background_value background i value self).2).1
    = (get_value "cif_str" self).1
  ∧ (get_value "cif_str" (get_background_value background i self).2).1
    = (get_value "cif_str" self).1
  ∧ (get_value "cif_str" (set_pattern_value pattern i value self).2).1
    = (get_value "cif_str" self).1.
Proof.
  repeat split;
    first [ apply get_instrument_value_conditions; simpl; unfold setattr;
            by rewrite lookup_insert_ne
          | rewrite !get_value_spec, !translate_sample_link; simpl;
            unfold getattr_default, setattr;
            first [by rewrite lookup_insert_eq | by rewrite lookup_insert_ne] ].
Qed.
End Passthroughs.

(** * Further properties of the material container *)

Section MaterialDefaults.
Context {iface : Type}.

(** [Material.default] builds the material that [Material.from_pars] builds
    from the default values of [MATERIAL_DEFAULTS] and the default name:
    handing the value over by keyword or by position, the keyword deleted,
    comes to the same parameters. *)
Theorem default_is_from_pars (interface : option iface) :
  ∃ (m : Material.t iface) (d_sld d_isld : gmap string pyval) (sld isld : number),
    MATERIAL_DEFAULTS !! "sld" = Some (PyDict d_sld)
    ∧ MATERIAL_DEFAULTS !! "isld" = Some (PyDict d_isld)
    ∧ d_sld !! "value" = Some (PyFloat sld)
    ∧ d_isld !! "value" = Some (PyFloat isld)
    ∧ Material.default interface = Returns m
    ∧ Material.from_pars sld isld "EasyMaterial" interface = Returns m.
Proof.
  eexists _, _, _, _, _.
  split; [reflexivity | split; [reflexivity | split; [reflexivity |
    split; [reflexivity | split; vm_compute; reflexivity]]]].
Qed.
End MaterialDefaults.

(** * Which getters only read *)

Section Getters.
Implicit Types (self : Cryspy) (background : pyval).

(** [get_value] and [get_instrument_value] leave the adapter as it is,
    whether they return or raise; [get_background_value], a getter by its
    name, changes the calculator whenever the background it is handed is
    not the one the calculator holds. *)
Theorem getters_read_only (value_label : string) background (i : Z) self :
  (get_value value_label self).2 = self
  ∧ (get_instrument_value value_label self).2 = self
  ∧ (calculator self !! "background" ≠ Some background →
     calculator (get_background_value background i self).2 ≠ calculator self).
Proof.
  split; [reflexivity | split].
  - unfold get_instrument_value, Py.bind, Py.get, Py.lift.
    destruct (getattr (calculator self) "conditions") as [cond | e]; [| done].
    case_decide; [done |].
    by destruct (getitem cond "resolution").
  - intros Hne Heq. apply Hne. rewrite <- Heq. simpl.
    unfold setattr. by rewrite lookup_insert_eq.
Qed.

Lemma getters_read_only_witness :
  calculator example_adapter !! "background" ≠ Some (PyStr "flat")
  ∧ calculator (get_background_value (PyStr "flat") 0 example_adapter).2
    ≠ calculator example_adapter.
Proof.
  assert (Hn : calculator example_adapter !! "background" ≠ Some (PyStr "flat"))
    by (vm_compute; discriminate).
  split; [exact Hn |].
  exact (proj2 (proj2 (getters_read_only "cif_str" (PyStr "flat") 0 example_adapter)) Hn).
Defined.
End Getters.
